(** * IAM helper of the CloudFormation builder (pkg/cfn/builder/iam_helper.go)

    A shallow embedding of [NormalizeARN], [makeManagedPolicies] and
    [createRole], and the properties of the managed-policy resolution and of
    the addon policy statements that the specification states about them.

    Go strings are byte strings: a Rocq [string] is the list of its bytes.
    Go [int] values that the code compares with [-1] are kept in [Z]. *)

From Stdlib Require Import Ascii.
From stdpp Require Import gmap strings list sorting.

Open Scope string_scope.

(* [set_solver] clears hypotheses it has already consumed. *)
Set Warnings "-clear-no-such-hyp".

(** ** The functions of Go's [strings] package that the helper calls *)

Module GoStrings.

(** [strings.Split(s, sep)] for a one-byte separator: the pieces of [s]
    between the occurrences of [sep], in order.  The result is never
    empty: a string without the separator yields the one-element slice
    holding [s] itself. *)
Fixpoint Split (s : string) (sep : ascii) : list string :=
  match s with
  | EmptyString => [EmptyString]
  | String c s' =>
      if decide (c = sep) then EmptyString :: Split s' sep
      else match Split s' sep with
           | p :: ps => String c p :: ps
           | [] => [String c EmptyString]
           end
  end.

(** [strings.IndexRune(s, r)] for a rune below 0x80: the byte index of
    the first occurrence of [r] in [s], or [-1]. *)
Fixpoint IndexRune (s : string) (r : ascii) : Z :=
  match s with
  | EmptyString => -1
  | String c s' =>
      if decide (c = r) then 0
      else let i := IndexRune s' r in
           if decide (i = -1) then -1 else i + 1
  end%Z.

(** [strings.HasPrefix(s, prefix)]. *)
Fixpoint HasPrefix (s prefix : string) : bool :=
  match prefix, s with
  | EmptyString, _ => true
  | String p prefix', String c s' =>
      if decide (c = p) then HasPrefix s' prefix' else false
  | String _ _, EmptyString => false
  end.

(** [strings.SplitN(s, sep, n)] for a one-byte separator and [n > 0]:
    at most [n] pieces, the last one being the unsplit remainder. *)
Fixpoint SplitN (s : string) (sep : ascii) (n : nat) : list string :=
  match n with
  | 0 => []
  | 1 => [s]
  | S n' =>
      match s with
      | EmptyString => [EmptyString]
      | String c s' =>
          if decide (c = sep) then EmptyString :: SplitN s' sep n'
          else match SplitN s' sep n with
               | p :: ps => String c p :: ps
               | [] => [String c EmptyString]
               end
      end
  end.

(** The slice expression [s[lo:]]. *)
Fixpoint drop (lo : nat) (s : string) : string :=
  match lo, s with
  | 0, _ => s
  | S lo', String _ s' => drop lo' s'
  | S _, EmptyString => EmptyString
  end.

Definition SliceFrom (s : string) (lo : Z) : string := drop (Z.to_nat lo) s.

(** [len(s)]. *)
Definition len (s : string) : Z := Z.of_nat (String.length s).

(** Whether the byte [c] occurs in [s]. *)
Fixpoint ContainsByte (s : string) (c : ascii) : bool :=
  match s with
  | EmptyString => false
  | String c' s' => if decide (c' = c) then true else ContainsByte s' c
  end.

End GoStrings.

(** ** NormalizeARN *)

Definition slash : ascii := "/"%char.

(** [NormalizeARN]: [parts := strings.Split(arn, "/")]; with at most one
    part the input is returned, otherwise [parts[0] + "/" + parts[len-1]]. *)
Definition NormalizeARN (arn : string) : string :=
  let parts := GoStrings.Split arn slash in
  if decide (length parts ≤ 1)%nat then arn
  else match parts !! 0, parts !! (length parts - 1) with
       | Some first, Some final => first +:+ "/" +:+ final
       | _, _ => arn
       end.

(** [strings.Count(s, sep)] for a one-byte separator: the number of
    occurrences of [sep] in [s]. *)
Fixpoint CountByte (s : string) (c : ascii) : nat :=
  match s with
  | EmptyString => 0
  | String c' s' => if decide (c' = c) then S (CountByte s' c) else CountByte s' c
  end.

(** ** Data model *)

(** A Go [error] value, identified with its message. *)
Definition error : Type := string.

(** A Go [(value, error)] result: exactly one of the two is set. *)
Inductive result (A : Type) : Type :=
| Ok (a : A)
| Err (e : error).
Arguments Ok {A} a.
Arguments Err {A} e.

(** Modelled from the spec: goformation's [types.Value] is declared outside
    the file; the helper builds four kinds of it: a literal string
    ([NewString], the explicit ARN form of an attached policy), an
    [Fn::Sub] string with the partition left open ([MakeFnSubString], the
    form in which a policy name of the default bundle or a
    partition-qualified resource pattern is resolved), a reference to a
    template resource ([MakeRef]) and a slice of values ([NewSlice]). *)
Module gfnt.
Local Unset Elimination Schemes.
Inductive Value : Type :=
| NewString (s : string)
| MakeFnSubString (s : string)
| MakeRef (name : string)
| NewSlice (vs : list Value).
Local Set Elimination Schemes.
End gfnt.

(** The AWS SDK's [arn.ARN]. *)
Module arn.
Record ARN : Type := {
  Partition : string;
  Service : string;
  Region : string;
  AccountID : string;
  Resource : string
}.
End arn.

(** Modelled from the spec: the configuration types of the [api] package
    are declared outside the file.  A flag is a [*bool], a tri-state
    enabled / disabled / unset, and [IsEnabled] takes unset as disabled. *)
Module api.
Record ClusterIAM : Type := {
  WithOIDC : option bool
}.

Record NodeGroupIAMAddonPolicies : Type := {
  ImageBuilder : option bool;
  AutoScaler : option bool;
  ExternalDNS : option bool;
  CertManager : option bool;
  AppMesh : option bool;
  AppMeshPreview : option bool;
  EBS : option bool;
  FSX : option bool;
  EFS : option bool;
  ALBIngress : option bool;
  XRay : option bool;
  CloudWatch : option bool
}.

Record NodeGroupIAM : Type := {
  AttachPolicyARNs : list string;
  InstanceRoleName : string;
  InstanceRolePermissionsBoundary : string;
  WithAddonPolicies : NodeGroupIAMAddonPolicies
}.

Definition IsEnabled (v : option bool) : bool :=
  match v with
  | Some b => b
  | None => false
  end.
End api.

(** [sets.String] of k8s.io/apimachinery: a set of strings kept as the keys
    of a map.  [List] returns the members sorted with [sort.Strings], i.e.
    in ascending byte-wise order, whatever order the map enumerates them
    in. *)
Module sets.
Definition NewString : gset string := ∅.
Definition Insert (s : gset string) (items : list string) : gset string :=
  s ∪ list_to_set items.
Definition Delete (s : gset string) (items : list string) : gset string :=
  s ∖ list_to_set items.
Definition List (s : gset string) : list string :=
  merge_sort String.le (elements s).
End sets.

(** Modelled from the spec: [makeStringSlice] and [makePolicyARNs] are
    helpers of the package that are not in the file.  The first turns each
    explicit ARN into a literal value, in order; the second resolves each
    policy name to its full ARN, with the partition left to the template. *)
Definition makeStringSlice (s : list string) : list gfnt.Value :=
  gfnt.NewString <$> s.

Definition makePolicyARN (policy : string) : gfnt.Value :=
  gfnt.MakeFnSubString ("arn:${AWS::Partition}:iam::aws:policy/" +:+ policy).

Definition makePolicyARNs (policyNames : list string) : list gfnt.Value :=
  makePolicyARN <$> policyNames.

(** Modelled from the spec: [addARNPartitionPrefix] is a helper of the
    package that is not in the file; it yields the partition-qualified
    resource pattern for the given suffix. *)
Definition addARNPartitionPrefix (s : string) : gfnt.Value :=
  gfnt.MakeFnSubString ("arn:${AWS::Partition}:" +:+ s).

(** ** makeManagedPolicies *)

Section ManagedPolicies.

(** The policy-name constants and the default node bundle are declared
    elsewhere in the package, and [arn.Parse] belongs to the AWS SDK:
    the development is parametric in them. *)
Variable iamDefaultNodePolicies : list string.
Variable iamPolicyAmazonEKSCNIPolicy : string.
Variable iamPolicyAmazonEC2ContainerRegistryPowerUser : string.
Variable iamPolicyAmazonEC2ContainerRegistryReadOnly : string.
Variable iamPolicyCloudWatchAgentServerPolicy : string.
Variable iamPolicyAmazonSSMManagedInstanceCore : string.
Variable arn_Parse : string → result arn.ARN.

(** Lines 277-305: the policy names collected before the attach-list is
    walked. *)
Definition collectPolicyNames (iamCluster : api.ClusterIAM)
    (iamConfig : api.NodeGroupIAM) (managed enableSSM : bool) : gset string :=
  let managedPolicyNames := sets.NewString in
  let managedPolicyNames :=
    if decide (length (api.AttachPolicyARNs iamConfig) = 0)%nat then
      let managedPolicyNames :=
        sets.Insert managedPolicyNames iamDefaultNodePolicies in
      let managedPolicyNames :=
        if negb (api.IsEnabled (api.WithOIDC iamCluster))
        then sets.Insert managedPolicyNames [iamPolicyAmazonEKSCNIPolicy]
        else managedPolicyNames in
      if managed
      then sets.Insert managedPolicyNames
             [iamPolicyAmazonEC2ContainerRegistryReadOnly]
      else managedPolicyNames
    else managedPolicyNames in
  let managedPolicyNames :=
    if enableSSM
    then sets.Insert managedPolicyNames [iamPolicyAmazonSSMManagedInstanceCore]
    else managedPolicyNames in
  let managedPolicyNames :=
    if api.IsEnabled (api.ImageBuilder (api.WithAddonPolicies iamConfig))
    then sets.Insert managedPolicyNames
           [iamPolicyAmazonEC2ContainerRegistryPowerUser]
    else if negb managed
    then sets.Insert managedPolicyNames
           [iamPolicyAmazonEC2ContainerRegistryReadOnly]
    else managedPolicyNames in
  if api.IsEnabled (api.CloudWatch (api.WithAddonPolicies iamConfig))
  then sets.Insert managedPolicyNames [iamPolicyCloudWatchAgentServerPolicy]
  else managedPolicyNames.

(** Lines 307-318: the loop over the attach-list.  Each entry is parsed
    and the name after the first ['/'] of its resource is deleted from
    the set; the first entry that does not parse, has no ['/'] in its
    resource or has nothing after that ['/'] ends the loop with an
    error. *)
Fixpoint deleteAttachedNames (policyARNs : list string)
    (managedPolicyNames : gset string) : result (gset string) :=
  match policyARNs with
  | [] => Ok managedPolicyNames
  | policyARN :: rest =>
      match arn_Parse policyARN with
      | Err err => Err err
      | Ok parsedARN =>
          let start := GoStrings.IndexRune (arn.Resource parsedARN) slash in
          if decide (start = -1 ∨
                     start + 1 = GoStrings.len (arn.Resource parsedARN))%Z
          then Err ("failed to find ARN resource name: "
                      +:+ arn.Resource parsedARN)
          else
            let resourceName :=
              GoStrings.SliceFrom (arn.Resource parsedARN) (start + 1) in
            deleteAttachedNames rest
              (sets.Delete managedPolicyNames [resourceName])
      end
  end.

Definition makeManagedPolicies (iamCluster : api.ClusterIAM)
    (iamConfig : api.NodeGroupIAM) (managed enableSSM : bool)
    : result gfnt.Value :=
  let managedPolicyNames :=
    collectPolicyNames iamCluster iamConfig managed enableSSM in
  match deleteAttachedNames (api.AttachPolicyARNs iamConfig)
          managedPolicyNames with
  | Err err => Err err
  | Ok managedPolicyNames =>
      Ok (gfnt.NewSlice
            (makeStringSlice (api.AttachPolicyARNs iamConfig)
               ++ makePolicyARNs (sets.List managedPolicyNames))%list)
  end.

End ManagedPolicies.

(** ** Attach-list entries and resolved policies *)

Section AttachListEntries.

Variable arn_Parse : string → result arn.ARN.

(** [policyARN] is a well-formed ARN and [name] is its resource name:
    the non-empty text after the first ['/'] of its resource. *)
Definition ResourceNameOf (policyARN name : string) : Prop :=
  ∃ parsedARN pre,
    arn_Parse policyARN = Ok parsedARN
    ∧ arn.Resource parsedARN = pre +:+ "/" +:+ name
    ∧ GoStrings.ContainsByte pre slash = false
    ∧ name ≠ "".

(** [policyARN] does not parse, or its resource has no ['/'], or the
    first ['/'] of its resource is the final character. *)
Definition Malformed (policyARN : string) : Prop :=
  (∃ err, arn_Parse policyARN = Err err)
  ∨ ∃ parsedARN,
      arn_Parse policyARN = Ok parsedARN
      ∧ (GoStrings.ContainsByte (arn.Resource parsedARN) slash = false
         ∨ ∃ pre, arn.Resource parsedARN = pre +:+ "/"
                  ∧ GoStrings.ContainsByte pre slash = false).

(** A policy is in a resolved list either in its default-bundle form or
    as an explicit entry of the attach-list that names it. *)
Definition InResolved (name : string) (l : list gfnt.Value) : Prop :=
  makePolicyARN name ∈ l
  ∨ ∃ policyARN, ResourceNameOf policyARN name
                 ∧ gfnt.NewString policyARN ∈ l.

End AttachListEntries.

Section PolicyNames.

Variable iamDefaultNodePolicies : list string.
Variable iamPolicyAmazonEKSCNIPolicy : string.
Variable iamPolicyAmazonEC2ContainerRegistryPowerUser : string.
Variable iamPolicyAmazonEC2ContainerRegistryReadOnly : string.
Variable iamPolicyCloudWatchAgentServerPolicy : string.
Variable iamPolicyAmazonSSMManagedInstanceCore : string.

(** The policy names are told apart from the read-only registry policy,
    resp. from the CNI policy: facts about the constants declared
    outside the file. *)
Definition ReadOnlyIsSeparate : Prop :=
  (iamPolicyAmazonEC2ContainerRegistryReadOnly ∉ iamDefaultNodePolicies)
  ∧ (iamPolicyAmazonEC2ContainerRegistryReadOnly
       ∉ [ iamPolicyAmazonEKSCNIPolicy;
           iamPolicyAmazonEC2ContainerRegistryPowerUser;
           iamPolicyCloudWatchAgentServerPolicy;
           iamPolicyAmazonSSMManagedInstanceCore ]).

Definition CNIPolicyIsSeparate : Prop :=
  (iamPolicyAmazonEKSCNIPolicy ∉ iamDefaultNodePolicies)
  ∧ (iamPolicyAmazonEKSCNIPolicy
       ∉ [ iamPolicyAmazonEC2ContainerRegistryReadOnly;
           iamPolicyAmazonEC2ContainerRegistryPowerUser;
           iamPolicyCloudWatchAgentServerPolicy;
           iamPolicyAmazonSSMManagedInstanceCore ]).

End PolicyNames.

(** ** createRole *)

(** Modelled from the spec: the trust-policy document built by
    [cft.MakeAssumeRolePolicyDocumentForServices] is data handed to the
    template builder; it is kept as the list of trusted services. *)
Module cft.
Inductive MapOfInterfaces : Type :=
| MakeAssumeRolePolicyDocumentForServices (services : list gfnt.Value).
End cft.

(** The fields of goformation's [iam.Role] that [createRole] sets; a field
    left unset is [None]. *)
Module gfniam.
Record Role : Type := {
  Path : gfnt.Value;
  AssumeRolePolicyDocument : cft.MapOfInterfaces;
  ManagedPolicyArns : gfnt.Value;
  RoleName : option gfnt.Value;
  PermissionsBoundary : option gfnt.Value
}.
End gfniam.

(** The [resources interface{}] argument of [attachAllowPolicy]: the
    callers pass either a string or a value. *)
Inductive Resources : Type :=
| ResourcesString (s : string)
| ResourcesValue (v : gfnt.Value).

(** The [cfnTemplate] interface.  Its methods act on the template they
    are called on: the template is threaded through the calls. *)
Class cfnTemplate (T : Type) : Type := {
  attachAllowPolicy :
    string → gfnt.Value → Resources → list string → T → T;
  newResource : string → gfniam.Role → T → gfnt.Value * T
}.

Definition appMeshActions : list string := [
  "servicediscovery:CreateService";
  "servicediscovery:DeleteService";
  "servicediscovery:GetService";
  "servicediscovery:GetInstance";
  "servicediscovery:RegisterInstance";
  "servicediscovery:DeregisterInstance";
  "servicediscovery:ListInstances";
  "servicediscovery:ListNamespaces";
  "servicediscovery:ListServices";
  "servicediscovery:GetInstancesHealthStatus";
  "servicediscovery:UpdateInstanceCustomHealthStatus";
  "servicediscovery:GetOperation";
  "route53:GetHealthCheck";
  "route53:CreateHealthCheck";
  "route53:UpdateHealthCheck";
  "route53:ChangeResourceRecordSets";
  "route53:DeleteHealthCheck"
].

Definition albIngressActions : list string := [
  "acm:DescribeCertificate";
  "acm:ListCertificates";
  "acm:GetCertificate";
  "ec2:AuthorizeSecurityGroupIngress";
  "ec2:CreateSecurityGroup";
  "ec2:CreateTags";
  "ec2:DeleteTags";
  "ec2:DeleteSecurityGroup";
  "ec2:DescribeAccountAttributes";
  "ec2:DescribeAddresses";
  "ec2:DescribeInstances";
  "ec2:DescribeInstanceStatus";
  "ec2:DescribeInternetGateways";
  "ec2:DescribeNetworkInterfaces";
  "ec2:DescribeSecurityGroups";
  "ec2:DescribeSubnets";
  "ec2:DescribeTags";
  "ec2:DescribeVpcs";
  "ec2:ModifyInstanceAttribute";
  "ec2:ModifyNetworkInterfaceAttribute";
  "ec2:RevokeSecurityGroupIngress";
  "elasticloadbalancing:AddListenerCertificates";
  "elasticloadbalancing:AddTags";
  "elasticloadbalancing:CreateListener";
  "elasticloadbalancing:CreateLoadBalancer";
  "elasticloadbalancing:CreateRule";
  "elasticloadbalancing:CreateTargetGroup";
  "elasticloadbalancing:DeleteListener";
  "elasticloadbalancing:DeleteLoadBalancer";
  "elasticloadbalancing:DeleteRule";
  "elasticloadbalancing:DeleteTargetGroup";
  "elasticloadbalancing:DeregisterTargets";
  "elasticloadbalancing:DescribeListenerCertificates";
  "elasticloadbalancing:DescribeListeners";
  "elasticloadbalancing:DescribeLoadBalancers";
  "elasticloadbalancing:DescribeLoadBalancerAttributes";
  "elasticloadbalancing:DescribeRules";
  "elasticloadbalancing:DescribeSSLPolicies";
  "elasticloadbalancing:DescribeTags";
  "elasticloadbalancing:DescribeTargetGroups";
  "elasticloadbalancing:DescribeTargetGroupAttributes";
  "elasticloadbalancing:DescribeTargetHealth";
  "elasticloadbalancing:ModifyListener";
  "elasticloadbalancing:ModifyLoadBalancerAttributes";
  "elasticloadbalancing:ModifyRule";
  "elasticloadbalancing:ModifyTargetGroup";
  "elasticloadbalancing:ModifyTargetGroupAttributes";
  "elasticloadbalancing:RegisterTargets";
  "elasticloadbalancing:RemoveListenerCertificates";
  "elasticloadbalancing:RemoveTags";
  "elasticloadbalancing:SetIpAddressType";
  "elasticloadbalancing:SetSecurityGroups";
  "elasticloadbalancing:SetSubnets";
  "elasticloadbalancing:SetWebACL";
  "iam:CreateServiceLinkedRole";
  "iam:GetServerCertificate";
  "iam:ListServerCertificates";
  "waf-regional:GetWebACLForResource";
  "waf-regional:GetWebACL";
  "waf-regional:AssociateWebACL";
  "waf-regional:DisassociateWebACL";
  "tag:GetResources";
  "tag:TagResources";
  "waf:GetWebACL";
  "wafv2:GetWebACL";
  "wafv2:GetWebACLForResource";
  "wafv2:AssociateWebACL";
  "wafv2:DisassociateWebACL";
  "shield:DescribeProtection";
  "shield:GetSubscriptionState";
  "shield:DeleteProtection";
  "shield:CreateProtection";
  "shield:DescribeSubscription";
  "shield:ListProtections"
].

Section CreateRole.

Variable iamDefaultNodePolicies : list string.
Variable iamPolicyAmazonEKSCNIPolicy : string.
Variable iamPolicyAmazonEC2ContainerRegistryPowerUser : string.
Variable iamPolicyAmazonEC2ContainerRegistryReadOnly : string.
Variable iamPolicyCloudWatchAgentServerPolicy : string.
Variable iamPolicyAmazonSSMManagedInstanceCore : string.
Variable arn_Parse : string → result arn.ARN.

(** The resource name of the instance role and the service-principal
    reference are declared elsewhere in the package. *)
Variable cfnIAMInstanceRoleName : string.
Variable MakeServiceRef : string → gfnt.Value.

Context {T : Type} `{!cfnTemplate T}.

(** A guarded group of calls on the template: [if cond { ... }]. *)
Definition when (cond : bool) (body : T → T) (t : T) : T :=
  if cond then body t else t.

(** [createRole] returns the error ([None] for [nil]) together with the
    template after the calls made on it. *)
Definition createRole (t : T) (clusterIAMConfig : api.ClusterIAM)
    (iamConfig : api.NodeGroupIAM) (managed enableSSM : bool)
    : option error * T :=
  match makeManagedPolicies iamDefaultNodePolicies
          iamPolicyAmazonEKSCNIPolicy
          iamPolicyAmazonEC2ContainerRegistryPowerUser
          iamPolicyAmazonEC2ContainerRegistryReadOnly
          iamPolicyCloudWatchAgentServerPolicy
          iamPolicyAmazonSSMManagedInstanceCore arn_Parse
          clusterIAMConfig iamConfig managed enableSSM with
  | Err err => (Some err, t)
  | Ok managedPolicyARNs =>
      let addons := api.WithAddonPolicies iamConfig in
      let role := {|
        gfniam.Path := gfnt.NewString "/";
        gfniam.AssumeRolePolicyDocument :=
          cft.MakeAssumeRolePolicyDocumentForServices [MakeServiceRef "EC2"];
        gfniam.ManagedPolicyArns := managedPolicyARNs;
        gfniam.RoleName :=
          if decide (api.InstanceRoleName iamConfig ≠ "")
          then Some (gfnt.NewString (api.InstanceRoleName iamConfig))
          else None;
        gfniam.PermissionsBoundary :=
          if decide (api.InstanceRolePermissionsBoundary iamConfig ≠ "")
          then Some (gfnt.NewString
                       (api.InstanceRolePermissionsBoundary iamConfig))
          else None
      |} in
      let '(refIR, t) := newResource cfnIAMInstanceRoleName role t in
      let t :=
        when (api.IsEnabled (api.AutoScaler addons))
          (attachAllowPolicy "PolicyAutoScaling" refIR (ResourcesString "*")
             [ "autoscaling:DescribeAutoScalingGroups";
               "autoscaling:DescribeAutoScalingInstances";
               "autoscaling:DescribeLaunchConfigurations";
               "autoscaling:DescribeTags";
               "autoscaling:SetDesiredCapacity";
               "autoscaling:TerminateInstanceInAutoScalingGroup";
               "ec2:DescribeLaunchTemplateVersions" ]) t in
      let t :=
        if api.IsEnabled (api.CertManager addons) then
          let t :=
            attachAllowPolicy "PolicyCertManagerChangeSet" refIR
              (ResourcesValue
                 (addARNPartitionPrefix "route53:::hostedzone/*"))
              [ "route53:ChangeResourceRecordSets" ] t in
          let hostedZonePolicy :=
            [ "route53:ListResourceRecordSets";
              "route53:ListHostedZonesByName" ] in
          let hostedZonePolicy :=
            if api.IsEnabled (api.ExternalDNS addons)
            then (hostedZonePolicy
                    ++ [ "route53:ListHostedZones";
                         "route53:ListTagsForResource" ])%list
            else hostedZonePolicy in
          let t :=
            attachAllowPolicy "PolicyCertManagerHostedZones" refIR
              (ResourcesString "*") hostedZonePolicy t in
          attachAllowPolicy "PolicyCertManagerGetChange" refIR
            (ResourcesValue (addARNPartitionPrefix "route53:::change/*"))
            [ "route53:GetChange" ] t
        else if api.IsEnabled (api.ExternalDNS addons) then
          let t :=
            attachAllowPolicy "PolicyExternalDNSChangeSet" refIR
              (ResourcesValue
                 (addARNPartitionPrefix "route53:::hostedzone/*"))
              [ "route53:ChangeResourceRecordSets" ] t in
          attachAllowPolicy "PolicyExternalDNSHostedZones" refIR
            (ResourcesString "*")
            [ "route53:ListHostedZones";
              "route53:ListResourceRecordSets";
              "route53:ListTagsForResource" ] t
        else t in
      let t :=
        when (api.IsEnabled (api.AppMesh addons))
          (attachAllowPolicy "PolicyAppMesh" refIR (ResourcesString "*")
             (appMeshActions ++ [ "appmesh:*" ])%list) t in
      let t :=
        when (api.IsEnabled (api.AppMeshPreview addons))
          (attachAllowPolicy "PolicyAppMeshPreview" refIR
             (ResourcesString "*")
             (appMeshActions ++ [ "appmesh-preview:*" ])%list) t in
      let t :=
        when (api.IsEnabled (api.EBS addons))
          (attachAllowPolicy "PolicyEBS" refIR (ResourcesString "*")
             [ "ec2:AttachVolume";
               "ec2:CreateSnapshot";
               "ec2:CreateTags";
               "ec2:CreateVolume";
               "ec2:DeleteSnapshot";
               "ec2:DeleteTags";
               "ec2:DeleteVolume";
               "ec2:DescribeAvailabilityZones";
               "ec2:DescribeInstances";
               "ec2:DescribeSnapshots";
               "ec2:DescribeTags";
               "ec2:DescribeVolumes";
               "ec2:DescribeVolumesModifications";
               "ec2:DetachVolume";
               "ec2:ModifyVolume" ]) t in
      let t :=
        when (api.IsEnabled (api.FSX addons))
          (λ t,
            let t :=
              attachAllowPolicy "PolicyFSX" refIR (ResourcesString "*")
                [ "fsx:*" ] t in
            attachAllowPolicy "PolicyServiceLinkRole" refIR
              (ResourcesValue
                 (addARNPartitionPrefix "iam::*:role/aws-service-role/*"))
              [ "iam:CreateServiceLinkedRole";
                "iam:AttachRolePolicy";
                "iam:PutRolePolicy" ] t) t in
      let t :=
        when (api.IsEnabled (api.EFS addons))
          (λ t,
            let t :=
              attachAllowPolicy "PolicyEFS" refIR (ResourcesString "*")
                [ "elasticfilesystem:*" ] t in
            attachAllowPolicy "PolicyEFSEC2" refIR (ResourcesString "*")
              [ "ec2:DescribeSubnets";
                "ec2:CreateNetworkInterface";
                "ec2:DescribeNetworkInterfaces";
                "ec2:DeleteNetworkInterface";
                "ec2:ModifyNetworkInterfaceAttribute";
                "ec2:DescribeNetworkInterfaceAttribute" ] t) t in
      let t :=
        when (api.IsEnabled (api.ALBIngress addons))
          (attachAllowPolicy "PolicyALBIngress" refIR (ResourcesString "*")
             albIngressActions) t in
      let t :=
        when (api.IsEnabled (api.XRay addons))
          (attachAllowPolicy "PolicyXRay" refIR (ResourcesString "*")
             [ "xray:PutTraceSegments";
               "xray:PutTelemetryRecords";
               "xray:GetSamplingRules";
               "xray:GetSamplingTargets";
               "xray:GetSamplingStatisticSummaries" ]) t in
      (None, t)
  end.

End CreateRole.

(** ** A template builder that records the calls made on it *)

(** Modelled from the spec: the template builder is an external
    collaborator; to speak about the calls [createRole] makes, this
    instance of the interface logs each call, in order, and answers
    [newResource] with a reference to the resource name. *)
Inductive call : Type :=
| CallNewResource (name : string) (resource : gfniam.Role)
| CallAttachAllowPolicy (name : string) (refRole : gfnt.Value)
    (resources : Resources) (actions : list string).

#[export] Instance recorder : cfnTemplate (list call) := {|
  attachAllowPolicy name refRole resources actions t :=
    (t ++ [CallAttachAllowPolicy name refRole resources actions])%list;
  newResource name resource t :=
    (gfnt.MakeRef name, (t ++ [CallNewResource name resource])%list)
|}.

(** The statement names of the [attachAllowPolicy] calls of a log. *)
Definition statementNames (log : list call) : list string :=
  omap (λ c, match c with
             | CallAttachAllowPolicy name _ _ _ => Some name
             | CallNewResource _ _ => None
             end) log.

(** The action lists of the statements of a log with the given name, and
    the action list of the first of them. *)
Definition statementActionLists (name : string) (log : list call)
    : list (list string) :=
  omap (λ c, match c with
             | CallAttachAllowPolicy n _ _ actions =>
                 if decide (n = name) then Some actions else None
             | CallNewResource _ _ => None
             end) log.

Definition statementActions (name : string) (log : list call)
    : option (list string) :=
  head (statementActionLists name log).

(** A hosted-zone change-record-sets statement: scoped to the hosted-zone
    resource pattern and granting [route53:ChangeResourceRecordSets]. *)
Definition isHostedZoneChangeSet (c : call) : bool :=
  match c with
  | CallAttachAllowPolicy _ _
      (ResourcesValue (gfnt.MakeFnSubString pattern)) actions =>
      bool_decide (pattern = "arn:${AWS::Partition}:route53:::hostedzone/*")
      && bool_decide ("route53:ChangeResourceRecordSets" ∈ actions)
  | _ => false
  end.

Definition hostedZoneChangeSets (log : list call) : list call :=
  filter (λ c, isHostedZoneChangeSet c = true) log.

(** The resource scope that goes with a statement name: the hosted-zone
    pattern for the two change-set statements, the change pattern for
    the get-change statement, the service-role pattern for the
    service-linked-role statement, and the wildcard for every other
    name. *)
Definition statementScope (name : string) : Resources :=
  if decide (name ∈ ["PolicyCertManagerChangeSet";
                     "PolicyExternalDNSChangeSet"])
  then ResourcesValue (addARNPartitionPrefix "route53:::hostedzone/*")
  else if decide (name = "PolicyCertManagerGetChange")
  then ResourcesValue (addARNPartitionPrefix "route53:::change/*")
  else if decide (name = "PolicyServiceLinkRole")
  then ResourcesValue (addARNPartitionPrefix "iam::*:role/aws-service-role/*")
  else ResourcesString "*".

(** ** A reference instance of the parameters *)

(** Modelled from the spec: the values below stand for what is declared
    outside the file.  The policy names are the AWS names of the bundles
    the spec describes, the default bundle holds the worker-node policy,
    and [Parse] follows the AWS SDK's [arn.Parse]: the string must start
    with ["arn:"] and split on [':'] into six sections, the last of which
    (the resource) keeps any further [':'].  They are used to run the
    functions on concrete configurations. *)
Module Reference.
Definition iamPolicyAmazonEKSWorkerNodePolicy := "AmazonEKSWorkerNodePolicy".
Definition iamPolicyAmazonEKSCNIPolicy := "AmazonEKS_CNI_Policy".
Definition iamPolicyAmazonEC2ContainerRegistryPowerUser :=
  "AmazonEC2ContainerRegistryPowerUser".
Definition iamPolicyAmazonEC2ContainerRegistryReadOnly :=
  "AmazonEC2ContainerRegistryReadOnly".
Definition iamPolicyCloudWatchAgentServerPolicy :=
  "CloudWatchAgentServerPolicy".
Definition iamPolicyAmazonSSMManagedInstanceCore :=
  "AmazonSSMManagedInstanceCore".
Definition iamDefaultNodePolicies : list string :=
  [iamPolicyAmazonEKSWorkerNodePolicy].
Definition cfnIAMInstanceRoleName := "NodeInstanceRole".
Definition MakeServiceRef (servicePrincipalName : string) : gfnt.Value :=
  gfnt.MakeFnSubString ("${ServicePrincipalPartitionMap."
                          +:+ servicePrincipalName +:+ "}").

Definition Parse (s : string) : result arn.ARN :=
  if negb (GoStrings.HasPrefix s "arn:") then Err "arn: invalid prefix"
  else match GoStrings.SplitN s ":"%char 6 with
       | [_; partition; service; region; accountID; resource] =>
           Ok {| arn.Partition := partition;
                 arn.Service := service;
                 arn.Region := region;
                 arn.AccountID := accountID;
                 arn.Resource := resource |}
       | _ => Err "arn: not enough sections"
       end.

Definition makeManagedPolicies :=
  makeManagedPolicies iamDefaultNodePolicies iamPolicyAmazonEKSCNIPolicy
    iamPolicyAmazonEC2ContainerRegistryPowerUser
    iamPolicyAmazonEC2ContainerRegistryReadOnly
    iamPolicyCloudWatchAgentServerPolicy
    iamPolicyAmazonSSMManagedInstanceCore Parse.

Definition createRole :=
  createRole iamDefaultNodePolicies iamPolicyAmazonEKSCNIPolicy
    iamPolicyAmazonEC2ContainerRegistryPowerUser
    iamPolicyAmazonEC2ContainerRegistryReadOnly
    iamPolicyCloudWatchAgentServerPolicy
    iamPolicyAmazonSSMManagedInstanceCore Parse
    cfnIAMInstanceRoleName MakeServiceRef (T := list call).

Definition noAddons : api.NodeGroupIAMAddonPolicies := {|
  api.ImageBuilder := None; api.AutoScaler := None;
  api.ExternalDNS := None; api.CertManager := None;
  api.AppMesh := None; api.AppMeshPreview := None;
  api.EBS := None; api.FSX := None; api.EFS := None;
  api.ALBIngress := None; api.XRay := None; api.CloudWatch := None
|}.

Definition nodeGroup (attach : list string)
    (addons : api.NodeGroupIAMAddonPolicies) : api.NodeGroupIAM := {|
  api.AttachPolicyARNs := attach;
  api.InstanceRoleName := "";
  api.InstanceRolePermissionsBoundary := "";
  api.WithAddonPolicies := addons
|}.

Definition cluster (oidc : option bool) : api.ClusterIAM :=
  {| api.WithOIDC := oidc |}.
End Reference.

(** Concrete attach-list entries and addon settings. *)
Module Examples.
Definition workerNodeARN := "arn:aws:iam::aws:policy/AmazonEKSWorkerNodePolicy".
Definition readOnlyARN :=
  "arn:aws:iam::aws:policy/AmazonEC2ContainerRegistryReadOnly".
Definition roleARN := "arn:aws:iam::123456789012:role".

Definition withImageBuilder : api.NodeGroupIAMAddonPolicies := {|
  api.ImageBuilder := Some true; api.AutoScaler := None;
  api.ExternalDNS := None; api.CertManager := None;
  api.AppMesh := None; api.AppMeshPreview := None;
  api.EBS := None; api.FSX := None; api.EFS := None;
  api.ALBIngress := None; api.XRay := None; api.CloudWatch := None
|}.

Definition allAddons (externalDNS : option bool)
    : api.NodeGroupIAMAddonPolicies := {|
  api.ImageBuilder := Some true; api.AutoScaler := Some true;
  api.ExternalDNS := externalDNS; api.CertManager := Some true;
  api.AppMesh := Some true; api.AppMeshPreview := Some true;
  api.EBS := Some true; api.FSX := Some true; api.EFS := Some true;
  api.ALBIngress := Some true; api.XRay := Some true;
  api.CloudWatch := Some true
|}.

Definition externalDNSOnly : api.NodeGroupIAMAddonPolicies := {|
  api.ImageBuilder := None; api.AutoScaler := None;
  api.ExternalDNS := Some true; api.CertManager := Some false;
  api.AppMesh := Some true; api.AppMeshPreview := None;
  api.EBS := None; api.FSX := None; api.EFS := None;
  api.ALBIngress := None; api.XRay := None; api.CloudWatch := None
|}.

(** The list a resolution returns, empty when it fails. *)
Definition resolved (cl : api.ClusterIAM) (cfg : api.NodeGroupIAM)
    (managed ssm : bool) : list gfnt.Value :=
  match Reference.makeManagedPolicies cl cfg managed ssm with
  | Ok (gfnt.NewSlice l) => l
  | _ => []
  end.

(** The calls a run of [createRole] records on the empty template. *)
Definition recorded (cl : api.ClusterIAM) (cfg : api.NodeGroupIAM)
    (managed ssm : bool) : list call :=
  snd (Reference.createRole [] cl cfg managed ssm).
End Examples.

(** ** Facts about the string functions *)

Section SplitFacts.
Variable sep : ascii.

Lemma Split_nonempty s : GoStrings.Split s sep ≠ [].
Proof.
  induction s as [|c s IH]; simpl; [done|].
  case_decide; [done|]. by destruct (GoStrings.Split s sep).
Qed.

Lemma Split_absent s :
  GoStrings.ContainsByte s sep = false → GoStrings.Split s sep = [s].
Proof.
  induction s as [|c s IH]; simpl; [done|].
  case_decide; [done|]. intros Hs. by rewrite IH.
Qed.

Lemma Split_at_first pre rest :
  GoStrings.ContainsByte pre sep = false →
  GoStrings.Split (pre +:+ String sep rest) sep
  = pre :: GoStrings.Split rest sep.
Proof.
  induction pre as [|c pre IH]; simpl.
  - intros _. by rewrite decide_True.
  - case_decide; [done|]. intros Hs. by rewrite IH.
Qed.

Lemma Split_at_last_shape init post :
  GoStrings.ContainsByte post sep = false →
  ∃ p ps, GoStrings.Split (init +:+ String sep post) sep = p :: ps ++ [post].
Proof.
  intros Hpost. induction init as [|c init (p & ps & IH)]; simpl.
  - rewrite decide_True, Split_absent by done. by exists EmptyString, [].
  - rewrite IH. case_decide.
    + by exists EmptyString, (p :: ps).
    + by exists (String c p), ps.
Qed.

Lemma Split_at_last init post :
  GoStrings.ContainsByte post sep = false →
  last (GoStrings.Split (init +:+ String sep post) sep) = Some post.
Proof.
  intros Hpost. destruct (Split_at_last_shape init post Hpost) as (p & ps & ->).
  by rewrite app_comm_cons, last_snoc.
Qed.

Lemma Split_length_absent s :
  GoStrings.ContainsByte s sep = false → length (GoStrings.Split s sep) = 1.
Proof. intros H. by rewrite Split_absent. Qed.

End SplitFacts.

Lemma last_lookup_length {A} (l : list A) : l !! (length l - 1) = last l.
Proof.
  rewrite last_lookup. f_equal. destruct l; simpl; lia.
Qed.

(** C9.  [NormalizeARN] returns its input when the input has no ['/'];
    otherwise it returns what precedes the first ['/'], one ['/'], and what
    follows the last ['/'].  It maps
    ["arn:aws:iam::123:role/custom/path/MyRole"] to
    ["arn:aws:iam::123:role/MyRole"] and the empty string to itself; being a
    function on all strings, it has no failure mode. *)
Theorem NormalizeARN_spec :
  (∀ arn, GoStrings.ContainsByte arn slash = false → NormalizeARN arn = arn) ∧
  (∀ arn pre rest init post,
      arn = pre +:+ "/" +:+ rest →
      GoStrings.ContainsByte pre slash = false →
      arn = init +:+ "/" +:+ post →
      GoStrings.ContainsByte post slash = false →
      NormalizeARN arn = pre +:+ "/" +:+ post) ∧
  NormalizeARN "arn:aws:iam::123:role/custom/path/MyRole"
    = "arn:aws:iam::123:role/MyRole" ∧
  NormalizeARN "" = "".
Proof.
  split; [|split; [|split; reflexivity]].
  - intros arn H. unfold NormalizeARN.
    rewrite Split_absent by done. done.
  - intros arn pre rest init post Hpre Hnopre Hpost Hnopost.
    unfold NormalizeARN.
    assert (Hlast : last (GoStrings.Split arn slash) = Some post).
    { rewrite Hpost. by apply Split_at_last. }
    rewrite last_lookup_length, Hlast.
    rewrite Hpre. change ("/" +:+ rest) with (String slash rest).
    rewrite Split_at_first by done. simpl.
    pose proof (Split_nonempty slash rest).
    destruct (GoStrings.Split rest slash) as [|p ps]; [done|].
    rewrite decide_False by (simpl; lia). done.
Qed.

Lemma NormalizeARN_spec_witness :
  NormalizeARN "a/b" = "a/b" ∧ NormalizeARN "role/custom/path/MyRole" = "role/MyRole"
  ∧ NormalizeARN "plain" = "plain".
Proof.
  destruct NormalizeARN_spec as (Habsent & Hsplit & _ & _).
  split; [|split].
  - apply (Hsplit "a/b" "a" "b" "a" "b"); reflexivity.
  - apply (Hsplit "role/custom/path/MyRole" "role" "custom/path/MyRole"
             "role/custom/path" "MyRole"); reflexivity.
  - apply (Habsent "plain"). reflexivity.
Defined.

(** ** Facts about [IndexRune] and slicing *)

Section IndexFacts.
Variable c : ascii.

Lemma len_nonneg s : (0 ≤ GoStrings.len s)%Z.
Proof. unfold GoStrings.len. lia. Qed.

Lemma len_String a s : GoStrings.len (String a s) = (GoStrings.len s + 1)%Z.
Proof. unfold GoStrings.len. simpl. lia. Qed.

Lemma IndexRune_range s :
  GoStrings.IndexRune s c = (-1)%Z
  ∨ (0 ≤ GoStrings.IndexRune s c < GoStrings.len s)%Z.
Proof.
  induction s as [|a s IH]; simpl; [by left|].
  rewrite len_String. pose proof (len_nonneg s).
  repeat case_decide; lia.
Qed.

Lemma IndexRune_absent s :
  GoStrings.IndexRune s c = (-1)%Z ↔ GoStrings.ContainsByte s c = false.
Proof.
  induction s as [|a s IH]; simpl; [done|].
  pose proof (IndexRune_range s) as Hr.
  destruct (decide (a = c)) as [Ha|Ha]; [done|].
  destruct (decide (GoStrings.IndexRune s c = (-1)%Z)) as [Hi|Hi].
  - split; [intros _; by apply IH|done].
  - split; [lia|]. intros Hs. by apply IH in Hs.
Qed.

Lemma IndexRune_first pre rest :
  GoStrings.ContainsByte pre c = false →
  GoStrings.IndexRune (pre +:+ String c rest) c = GoStrings.len pre.
Proof.
  induction pre as [|a pre IH]; simpl.
  - intros _. by rewrite decide_True.
  - case_decide; [done|]. intros Hpre. rewrite IH by done.
    rewrite len_String. pose proof (len_nonneg pre).
    rewrite decide_False by lia. done.
Qed.

Lemma len_app_sep pre rest :
  GoStrings.len (pre +:+ String c rest)
  = (GoStrings.len pre + 1 + GoStrings.len rest)%Z.
Proof.
  unfold GoStrings.len.
  induction pre as [|a pre IH]; simpl in *; lia.
Qed.

Lemma SliceFrom_after pre rest :
  GoStrings.SliceFrom (pre +:+ String c rest) (GoStrings.len pre + 1) = rest.
Proof.
  unfold GoStrings.SliceFrom, GoStrings.len.
  replace (Z.to_nat (Z.of_nat (String.length pre) + 1))
    with (S (String.length pre)) by lia.
  induction pre as [|a pre IH]; simpl; done.
Qed.

Lemma ContainsByte_split s :
  GoStrings.ContainsByte s c = true →
  ∃ pre rest, s = pre +:+ String c rest
              ∧ GoStrings.ContainsByte pre c = false.
Proof.
  induction s as [|a s IH]; simpl; [done|].
  case_decide as Ha.
  - intros _. subst a. by exists EmptyString, s.
  - intros (pre & rest & -> & Hpre)%IH.
    exists (String a pre), rest. split; [done|].
    simpl. by rewrite decide_False.
Qed.

Lemma len_zero s : GoStrings.len s = 0%Z → s = EmptyString.
Proof. destruct s; [done|]. rewrite len_String. pose proof (len_nonneg s). lia. Qed.

End IndexFacts.

(** ** Further facts about [NormalizeARN] *)

Lemma CountByte_absent s c :
  CountByte s c = 0 ↔ GoStrings.ContainsByte s c = false.
Proof.
  induction s as [|a s IH]; simpl; [done|]. by case_decide.
Qed.

Lemma CountByte_app s1 s2 c :
  CountByte (s1 +:+ s2) c = CountByte s1 c + CountByte s2 c.
Proof.
  induction s1 as [|a s1 IH]; simpl; [done|]. case_decide; lia.
Qed.

Lemma ContainsByte_split_last s c :
  GoStrings.ContainsByte s c = true →
  ∃ init post, s = init +:+ String c post
               ∧ GoStrings.ContainsByte post c = false.
Proof.
  induction s as [|a s IH]; simpl; [done|].
  destruct (GoStrings.ContainsByte s c) eqn:Hs.
  - intros _. destruct IH as (init & post & -> & Hpost); [done|].
    by exists (String a init), post.
  - case_decide as Ha; [|done]. intros _. subst a. by exists EmptyString, s.
Qed.

(** The two cases of [NormalizeARN], with the pieces it keeps. *)
Lemma NormalizeARN_cases arn :
  (GoStrings.ContainsByte arn slash = false ∧ NormalizeARN arn = arn)
  ∨ ∃ pre rest post,
      arn = pre +:+ String slash rest
      ∧ GoStrings.ContainsByte pre slash = false
      ∧ GoStrings.ContainsByte post slash = false
      ∧ (∃ init, arn = init +:+ String slash post)
      ∧ NormalizeARN arn = pre +:+ String slash post.
Proof.
  destruct (GoStrings.ContainsByte arn slash) eqn:Hc.
  - right.
    destruct (ContainsByte_split _ _ Hc) as (pre & rest & Hpre & Hnopre).
    destruct (ContainsByte_split_last _ _ Hc) as (init & post & Hpost & Hnopost).
    exists pre, rest, post. repeat split; try done; [by exists init|].
    unfold NormalizeARN.
    assert (Hlast : last (GoStrings.Split arn slash) = Some post).
    { rewrite Hpost. by apply Split_at_last. }
    rewrite last_lookup_length, Hlast.
    rewrite Hpre, Split_at_first by done. simpl.
    pose proof (Split_nonempty slash rest) as Hne.
    destruct (GoStrings.Split rest slash) as [|p ps]; [done|].
    rewrite decide_False by (simpl; lia). done.
  - left. split; [done|]. unfold NormalizeARN. by rewrite Split_absent.
Qed.

Lemma NormalizeARN_single pre post :
  GoStrings.ContainsByte pre slash = false →
  GoStrings.ContainsByte post slash = false →
  NormalizeARN (pre +:+ String slash post) = pre +:+ String slash post.
Proof.
  intros Hpre Hpost. unfold NormalizeARN.
  by rewrite Split_at_first, Split_absent by done.
Qed.

Lemma NormalizeARN_single_eq pre rest post :
  GoStrings.ContainsByte pre slash = false →
  GoStrings.ContainsByte rest slash = false →
  GoStrings.ContainsByte post slash = false →
  (∃ init, pre +:+ String slash rest = init +:+ String slash post) →
  pre +:+ String slash post = pre +:+ String slash rest.
Proof.
  intros Hpre Hrest Hpost [init Hinit].
  pose proof (Split_at_last slash init post Hpost) as Hlast.
  rewrite <- Hinit, Split_at_first, Split_absent in Hlast by done.
  simpl in Hlast. by injection Hlast as ->.
Qed.

(** X2.  The result of [NormalizeARN] has no ['/'] when the input has
    none, and exactly one otherwise. *)
Theorem NormalizeARN_slashes arn :
  CountByte (NormalizeARN arn) slash = min 1 (CountByte arn slash).
Proof.
  destruct (NormalizeARN_cases arn)
    as [[Hno ->]|(pre & rest & post & Harn & Hpre & Hpost & _ & ->)].
  - apply CountByte_absent in Hno. lia.
  - apply CountByte_absent in Hpre, Hpost.
    rewrite Harn, !CountByte_app, Hpre. simpl. by rewrite Hpost.
Qed.

(** X3.  [NormalizeARN] leaves its input as it is exactly when the input
    has at most one ['/']. *)
Theorem NormalizeARN_fixed_point arn :
  NormalizeARN arn = arn ↔ (CountByte arn slash ≤ 1)%nat.
Proof.
  split.
  - intros Hfix.
    destruct (NormalizeARN_cases arn)
      as [[Hno _]|(pre & rest & post & _ & Hpre & Hpost & _ & Hnorm)].
    + apply CountByte_absent in Hno. lia.
    + rewrite <- Hfix, Hnorm. apply CountByte_absent in Hpre, Hpost.
      rewrite CountByte_app. simpl. lia.
  - intros Hcount.
    destruct (NormalizeARN_cases arn)
      as [[_ Hsame]|(pre & rest & post & Harn & Hpre & Hpost & Hinit
                       & Hnorm)]; [done|].
    rewrite Harn in Hinit.
    assert (Hrest : GoStrings.ContainsByte rest slash = false).
    { apply CountByte_absent. apply CountByte_absent in Hpre.
      rewrite Harn, CountByte_app in Hcount. simpl in Hcount. lia. }
    rewrite Hnorm, Harn. by apply NormalizeARN_single_eq.
Qed.

(** X1.  [NormalizeARN] is idempotent. *)
Theorem NormalizeARN_idempotent arn :
  NormalizeARN (NormalizeARN arn) = NormalizeARN arn.
Proof.
  destruct (NormalizeARN_cases arn)
    as [[_ Hsame]|(pre & rest & post & _ & Hpre & Hpost & _ & Hnorm)].
  - by rewrite !Hsame.
  - rewrite Hnorm. by apply NormalizeARN_single.
Qed.

(** ** Facts about [sets.List] and the resolved values *)

Lemma List_elem_of (s : gset string) x : x ∈ sets.List s ↔ x ∈ s.
Proof.
  unfold sets.List. rewrite merge_sort_Permutation. apply elem_of_elements.
Qed.

Lemma List_NoDup (s : gset string) : NoDup (sets.List s).
Proof.
  unfold sets.List. rewrite merge_sort_Permutation. apply NoDup_elements.
Qed.

Lemma List_sorted (s : gset string) : StronglySorted String.le (sets.List s).
Proof. apply StronglySorted_merge_sort; apply _. Qed.

(** The sorted list does not depend on the order in which the members of
    the set are enumerated. *)
Lemma List_enumeration (s : gset string) (keys : list string) :
  keys ≡ₚ elements s → merge_sort String.le keys = sets.List s.
Proof.
  intros Hkeys. apply (StronglySorted_unique String.le).
  - apply StronglySorted_merge_sort; apply _.
  - apply List_sorted.
  - unfold sets.List. by rewrite !merge_sort_Permutation.
Qed.

#[export] Instance makePolicyARN_inj : Inj (=) (=) makePolicyARN.
Proof.
  intros x y Heq. unfold makePolicyARN in Heq.
  injection Heq as Heq. by apply (inj _) in Heq.
Qed.

Lemma resolved_elem_of_default (attach names : list string) n :
  makePolicyARN n ∈ (makeStringSlice attach ++ makePolicyARNs names)%list
  ↔ n ∈ names.
Proof.
  unfold makeStringSlice, makePolicyARNs.
  rewrite elem_of_app, !list_elem_of_fmap. split.
  - intros [(a & Ha & _)|(m & Hm & Hin)]; [done|].
    by apply (inj _) in Hm as ->.
  - intros Hn. right. by exists n.
Qed.

Lemma resolved_elem_of_explicit (attach names : list string) a :
  gfnt.NewString a ∈ (makeStringSlice attach ++ makePolicyARNs names)%list
  ↔ a ∈ attach.
Proof.
  unfold makeStringSlice, makePolicyARNs.
  rewrite elem_of_app, !list_elem_of_fmap. split.
  - intros [(b & Hb & Hin)|(m & Hm & _)]; [|done].
    by injection Hb as ->.
  - intros Ha. left. by exists a.
Qed.

Lemma resolved_NoDup (attach names : list string) :
  NoDup names →
  NoDup (makeStringSlice attach ++ makePolicyARNs names)%list ↔ NoDup attach.
Proof.
  intros Hnames. unfold makeStringSlice, makePolicyARNs.
  rewrite NoDup_app. split.
  - intros (Hattach & _ & _).
    eapply NoDup_fmap_1, Hattach.
  - intros Hattach. split; [|split].
    + apply NoDup_fmap_2; [|done]. by intros x y [= ->].
    + intros v (a & -> & _)%list_elem_of_fmap (n & Hn & _)%list_elem_of_fmap.
      done.
    + by apply NoDup_fmap_2; [apply _|].
Qed.

(** ** Facts about the resolution *)

Section ManagedPoliciesFacts.

Variable iamDefaultNodePolicies : list string.
Variable iamPolicyAmazonEKSCNIPolicy : string.
Variable iamPolicyAmazonEC2ContainerRegistryPowerUser : string.
Variable iamPolicyAmazonEC2ContainerRegistryReadOnly : string.
Variable iamPolicyCloudWatchAgentServerPolicy : string.
Variable iamPolicyAmazonSSMManagedInstanceCore : string.
Variable arn_Parse : string → result arn.ARN.

Local Abbreviation collect :=
  (collectPolicyNames iamDefaultNodePolicies iamPolicyAmazonEKSCNIPolicy
     iamPolicyAmazonEC2ContainerRegistryPowerUser
     iamPolicyAmazonEC2ContainerRegistryReadOnly
     iamPolicyCloudWatchAgentServerPolicy
     iamPolicyAmazonSSMManagedInstanceCore).
Local Abbreviation resolve :=
  (makeManagedPolicies iamDefaultNodePolicies iamPolicyAmazonEKSCNIPolicy
     iamPolicyAmazonEC2ContainerRegistryPowerUser
     iamPolicyAmazonEC2ContainerRegistryReadOnly
     iamPolicyCloudWatchAgentServerPolicy
     iamPolicyAmazonSSMManagedInstanceCore arn_Parse).

Local Abbreviation ResourceName := (ResourceNameOf arn_Parse).
Local Abbreviation MalformedEntry := (Malformed arn_Parse).
Local Abbreviation InResult := (InResolved arn_Parse).
Local Abbreviation ReadOnlySeparate :=
  (ReadOnlyIsSeparate iamDefaultNodePolicies iamPolicyAmazonEKSCNIPolicy
     iamPolicyAmazonEC2ContainerRegistryPowerUser
     iamPolicyAmazonEC2ContainerRegistryReadOnly
     iamPolicyCloudWatchAgentServerPolicy
     iamPolicyAmazonSSMManagedInstanceCore).
Local Abbreviation CNISeparate :=
  (CNIPolicyIsSeparate iamDefaultNodePolicies iamPolicyAmazonEKSCNIPolicy
     iamPolicyAmazonEC2ContainerRegistryPowerUser
     iamPolicyAmazonEC2ContainerRegistryReadOnly
     iamPolicyCloudWatchAgentServerPolicy
     iamPolicyAmazonSSMManagedInstanceCore).

Lemma ResourceNameOf_unique policyARN n1 n2 :
  ResourceName policyARN n1 → ResourceName policyARN n2 → n1 = n2.
Proof.
  intros (p1 & pre1 & Hp1 & Hr1 & Hc1 & _) (p2 & pre2 & Hp2 & Hr2 & Hc2 & _).
  rewrite Hp1 in Hp2. injection Hp2 as <-.
  pose proof (SliceFrom_after slash pre1 n1) as H1.
  pose proof (SliceFrom_after slash pre2 n2) as H2.
  pose proof (IndexRune_first slash pre1 n1 Hc1) as I1.
  pose proof (IndexRune_first slash pre2 n2 Hc2) as I2.
  change (String slash n1) with ("/" +:+ n1) in *.
  change (String slash n2) with ("/" +:+ n2) in *.
  rewrite <- Hr1 in *. rewrite Hr2 in I1 at 1. rewrite <- Hr2 in *.
  rewrite <- I1, I2 in H1. congruence.
Qed.

Lemma Malformed_not_ResourceNameOf policyARN name :
  MalformedEntry policyARN → ResourceName policyARN name → False.
Proof.
  intros Hbad (p & pre & Hp & Hr & Hpre & Hne).
  pose proof (IndexRune_first slash pre name Hpre) as Hi.
  pose proof (len_app_sep slash pre name) as Hl.
  change (String slash name) with ("/" +:+ name) in Hi, Hl.
  rewrite <- Hr in Hi, Hl.
  pose proof (len_nonneg pre). pose proof (len_nonneg name).
  destruct Hbad as [[e He]|(p' & Hp' & Hres)]; [congruence|].
  rewrite Hp in Hp'. injection Hp' as <-.
  destruct Hres as [Hno|(pre' & Hr' & Hpre')].
  - apply IndexRune_absent in Hno. lia.
  - pose proof (IndexRune_first slash pre' "" Hpre') as Hi'.
    pose proof (len_app_sep slash pre' "") as Hl'.
    change (String slash "") with "/" in Hi', Hl'.
    rewrite <- Hr' in Hi', Hl'.
    change (GoStrings.len "") with 0%Z in Hl'.
    apply Hne, len_zero. lia.
Qed.

Lemma classify policyARN :
  MalformedEntry policyARN ∨ ∃ name, ResourceName policyARN name.
Proof.
  unfold Malformed, ResourceNameOf.
  destruct (arn_Parse policyARN) as [p|e]; [|left; left; by exists e].
  destruct (GoStrings.ContainsByte (arn.Resource p) slash) eqn:Hc;
    [|left; right; exists p; auto].
  destruct (ContainsByte_split _ _ Hc) as (pre & rest & Hr & Hpre).
  destruct rest as [|a rest].
  - left; right. exists p. split; [done|]. right. by exists pre.
  - right. exists (String a rest), p, pre. done.
Qed.

Lemma deleteAttachedNames_malformed policyARN rest names :
  MalformedEntry policyARN →
  ∃ err, deleteAttachedNames arn_Parse (policyARN :: rest) names = Err err.
Proof.
  intros [[e He]|(p & Hp & Hres)]; simpl.
  - rewrite He. by exists e.
  - rewrite Hp. rewrite decide_True; [by eexists|].
    destruct Hres as [Hno|(pre & Hr & Hpre)].
    + left. by apply IndexRune_absent.
    + right. rewrite Hr. change (pre +:+ "/") with (pre +:+ String slash "").
      rewrite IndexRune_first, len_app_sep by done.
      unfold GoStrings.len at 3. simpl. lia.
Qed.

Lemma deleteAttachedNames_step policyARN name rest names :
  ResourceName policyARN name →
  deleteAttachedNames arn_Parse (policyARN :: rest) names
  = deleteAttachedNames arn_Parse rest (names ∖ {[name]}).
Proof.
  intros (p & pre & Hp & Hr & Hpre & Hne). simpl. rewrite Hp, Hr.
  change ("/" +:+ name) with (String slash name).
  rewrite IndexRune_first, len_app_sep, SliceFrom_after by done.
  pose proof (len_nonneg pre). pose proof (len_nonneg name).
  rewrite decide_False.
  - f_equal. unfold sets.Delete. set_solver.
  - intros [?|Hlen]; [lia|].
    assert (GoStrings.len name = 0%Z) as Hz%len_zero by lia. done.
Qed.

Lemma deleteAttachedNames_Ok_inv policyARNs names names' :
  deleteAttachedNames arn_Parse policyARNs names = Ok names' →
  ∃ ns, Forall2 ResourceName policyARNs ns
        ∧ names' = names ∖ list_to_set ns.
Proof.
  revert names. induction policyARNs as [|a rest IH]; intros names.
  - simpl. intros [= <-]. exists []. split; [constructor|set_solver].
  - destruct (classify a) as [Hbad|[n Hn]].
    + destruct (deleteAttachedNames_malformed a rest names Hbad) as [e ->].
      done.
    + rewrite (deleteAttachedNames_step a n) by done.
      intros (ns & Hns & ->)%IH. exists (n :: ns).
      split; [by constructor|set_solver].
Qed.

Lemma deleteAttachedNames_Ok policyARNs ns names :
  Forall2 ResourceName policyARNs ns →
  deleteAttachedNames arn_Parse policyARNs names
  = Ok (names ∖ list_to_set ns).
Proof.
  intros Hns. revert names.
  induction Hns as [|a n rest ns Hn _ IH]; intros names.
  - simpl. f_equal. set_solver.
  - rewrite (deleteAttachedNames_step a n) by done. rewrite IH.
    f_equal. set_solver.
Qed.

Lemma deleteAttachedNames_Err policyARNs names :
  Exists MalformedEntry policyARNs →
  ∃ err, deleteAttachedNames arn_Parse policyARNs names = Err err.
Proof.
  intros Hex. revert names.
  induction policyARNs as [|a rest IH]; intros names.
  - by apply Exists_nil in Hex.
  - destruct (classify a) as [Hbad|[n Hn]].
    + by apply deleteAttachedNames_malformed.
    + rewrite (deleteAttachedNames_step a n) by done.
      apply IH. apply Exists_cons in Hex as [Hbad|Hrest]; [|done].
      by destruct (Malformed_not_ResourceNameOf a n).
Qed.

(** *** The shape of a successful resolution *)

Lemma resolve_Ok_inv cl cfg managed ssm v :
  resolve cl cfg managed ssm = Ok v →
  ∃ ns, Forall2 ResourceName (api.AttachPolicyARNs cfg) ns
        ∧ v = gfnt.NewSlice
                (makeStringSlice (api.AttachPolicyARNs cfg)
                   ++ makePolicyARNs
                        (sets.List (collect cl cfg managed ssm
                                      ∖ list_to_set ns)))%list.
Proof.
  unfold makeManagedPolicies.
  destruct (deleteAttachedNames _ _ _) as [names|e] eqn:Hloop; [|done].
  apply deleteAttachedNames_Ok_inv in Hloop as (ns & Hns & ->).
  intros [= <-]. by exists ns.
Qed.

Lemma resolve_Ok cl cfg managed ssm ns :
  Forall2 ResourceName (api.AttachPolicyARNs cfg) ns →
  resolve cl cfg managed ssm
  = Ok (gfnt.NewSlice
          (makeStringSlice (api.AttachPolicyARNs cfg)
             ++ makePolicyARNs
                  (sets.List (collect cl cfg managed ssm
                                ∖ list_to_set ns)))%list).
Proof.
  intros Hns. unfold makeManagedPolicies.
  by rewrite (deleteAttachedNames_Ok _ ns).
Qed.

Lemma resolve_Err cl cfg managed ssm :
  Exists MalformedEntry (api.AttachPolicyARNs cfg) →
  ∃ err, resolve cl cfg managed ssm = Err err.
Proof.
  intros Hbad. unfold makeManagedPolicies.
  destruct (deleteAttachedNames_Err _
              (collect cl cfg managed ssm) Hbad) as [e ->].
  by exists e.
Qed.

(** The names an attach-list deletes: the resource names of its
    entries. *)
Lemma Forall2_ResourceNameOf_elem_of policyARNs ns n :
  Forall2 ResourceName policyARNs ns →
  n ∈ ns ↔ ∃ a, a ∈ policyARNs ∧ ResourceName a n.
Proof.
  intros Hns. induction Hns as [|a m rest ns Ham _ IH].
  - split; [by intros ?%elem_of_nil|by intros (a & ?%elem_of_nil & _)].
  - rewrite elem_of_cons, IH. split.
    + intros [->|(a' & Ha' & Hn)]; [exists a|exists a'];
        rewrite elem_of_cons; auto.
    + intros (a' & [->|Ha']%elem_of_cons & Hn).
      * left. by apply (ResourceNameOf_unique a).
      * right. by exists a'.
Qed.

Lemma InResolved_collect cl cfg managed ssm l name :
  resolve cl cfg managed ssm = Ok (gfnt.NewSlice l) →
  name ∈ collect cl cfg managed ssm → InResult name l.
Proof.
  intros (ns & Hns & [= ->])%resolve_Ok_inv Hname.
  destruct (decide (name ∈ ns)) as [Hin|Hout].
  - right. apply (Forall2_ResourceNameOf_elem_of _ _ _ Hns) in Hin
      as (a & Ha & Han).
    exists a. split; [done|]. by apply resolved_elem_of_explicit.
  - left. apply resolved_elem_of_default, List_elem_of. set_solver.
Qed.

Lemma default_form_elem_of cl cfg managed ssm l name :
  resolve cl cfg managed ssm = Ok (gfnt.NewSlice l) →
  makePolicyARN name ∈ l
  ↔ name ∈ collect cl cfg managed ssm
    ∧ ¬ ∃ a, a ∈ api.AttachPolicyARNs cfg ∧ ResourceName a name.
Proof.
  intros (ns & Hns & [= ->])%resolve_Ok_inv.
  rewrite resolved_elem_of_default, List_elem_of, elem_of_difference.
  rewrite elem_of_list_to_set.
  by rewrite (Forall2_ResourceNameOf_elem_of _ _ _ Hns).
Qed.

Lemma attached_default_form_absent cl cfg managed ssm l policyARN name :
  resolve cl cfg managed ssm = Ok (gfnt.NewSlice l) →
  policyARN ∈ api.AttachPolicyARNs cfg →
  ResourceName policyARN name →
  makePolicyARN name ∉ l.
Proof.
  intros Hok Hin Hname.
  rewrite (default_form_elem_of _ _ _ _ _ _ Hok).
  intros [_ Hnot]. apply Hnot. by exists policyARN.
Qed.

(** *** Properties of the resolved managed-policy list *)

(** C1, as amended.  For a managed node group with an empty attach-list
    the resolution succeeds and the resolved list contains the read-only
    container-registry policy, whatever the other flags are.  For a
    managed node group with a non-empty attach-list the resolver does not
    add that policy (its name being none of the SSM, read-write registry
    and CloudWatch policy names): a successful result does not hold its
    default-bundle form, and holds the policy exactly when an entry of
    the attach-list names it. *)
Theorem managed_default_has_registry_read_only cl cfg ssm :
  (api.AttachPolicyARNs cfg = [] →
   ∃ l, resolve cl cfg true ssm = Ok (gfnt.NewSlice l)
        ∧ makePolicyARN iamPolicyAmazonEC2ContainerRegistryReadOnly ∈ l)
  ∧ (api.AttachPolicyARNs cfg ≠ [] →
     iamPolicyAmazonEC2ContainerRegistryReadOnly
       ∉ [ iamPolicyAmazonEC2ContainerRegistryPowerUser;
           iamPolicyCloudWatchAgentServerPolicy;
           iamPolicyAmazonSSMManagedInstanceCore ] →
     ∀ l, resolve cl cfg true ssm = Ok (gfnt.NewSlice l) →
          (makePolicyARN iamPolicyAmazonEC2ContainerRegistryReadOnly ∉ l)
          ∧ (InResult iamPolicyAmazonEC2ContainerRegistryReadOnly l
             ↔ ∃ policyARN,
                 policyARN ∈ api.AttachPolicyARNs cfg
                 ∧ ResourceName policyARN
                     iamPolicyAmazonEC2ContainerRegistryReadOnly)).
Proof.
  split.
  - intros Hnil. eexists. split.
    + apply (resolve_Ok _ _ _ _ []). rewrite Hnil. constructor.
    + apply resolved_elem_of_default, List_elem_of.
      apply elem_of_difference. split; [|set_solver].
      unfold collectPolicyNames. rewrite Hnil. simpl.
      unfold sets.Insert. repeat case_match; set_solver.
  - intros Hne Hsep l Hok.
    assert (Hdefault :
      makePolicyARN iamPolicyAmazonEC2ContainerRegistryReadOnly ∉ l).
    { rewrite (default_form_elem_of _ _ _ _ _ _ Hok). intros [Hin _].
      revert Hin. rewrite !not_elem_of_cons in Hsep.
      unfold collectPolicyNames.
      rewrite decide_False by (by destruct (api.AttachPolicyARNs cfg)).
      unfold sets.Insert, sets.NewString.
      destruct ssm,
        (api.IsEnabled (api.ImageBuilder (api.WithAddonPolicies cfg))),
        (api.IsEnabled (api.CloudWatch (api.WithAddonPolicies cfg)));
        simpl; set_solver. }
    split; [done|].
    destruct (resolve_Ok_inv _ _ _ _ _ Hok) as (ns & Hns & [= Hl]).
    split.
    + intros [Hin|(a & Ha & Hin)]; [done|].
      exists a. split; [|done].
      rewrite Hl in Hin. by apply resolved_elem_of_explicit in Hin.
    + intros (a & Hin & Ha). right. exists a. split; [done|].
      rewrite Hl. by apply resolved_elem_of_explicit.
Qed.

(** C3.  When the resolution succeeds and an entry of the attach-list is
    a well-formed ARN with resource name [name], the result contains
    that entry in its explicit form and does not contain the
    default-bundle form of [name]; in particular when [name] is the
    short name of a policy of the default bundle. *)
Theorem explicit_entry_overrides_default cl cfg managed ssm l policyARN name :
  resolve cl cfg managed ssm = Ok (gfnt.NewSlice l) →
  policyARN ∈ api.AttachPolicyARNs cfg →
  ResourceName policyARN name →
  gfnt.NewString policyARN ∈ l ∧ makePolicyARN name ∉ l.
Proof.
  intros Hok Hin Hname. split.
  - apply resolve_Ok_inv in Hok as (ns & Hns & [= ->]).
    by apply resolved_elem_of_explicit.
  - by apply (attached_default_form_absent _ _ _ _ _ policyARN name Hok).
Qed.

(** C4, as amended.  On a successful resolution: for a self-managed node
    group with image-builder disabled the read-only container-registry
    policy is in the result, also with a non-empty attach-list (in its
    default-bundle form, or as the explicit entry that names it); with
    image-builder enabled the read-write policy is in the result, and
    the default-bundle form of the read-only policy is absent when the
    node group is self-managed or the attach-list is non-empty; a managed
    node group with image-builder enabled and an empty attach-list gets
    both policies. *)
Theorem registry_policy_by_image_builder cl cfg managed ssm l :
  resolve cl cfg managed ssm = Ok (gfnt.NewSlice l) →
  (managed = false →
   api.IsEnabled (api.ImageBuilder (api.WithAddonPolicies cfg)) = false →
   InResult iamPolicyAmazonEC2ContainerRegistryReadOnly l)
  ∧ (api.IsEnabled (api.ImageBuilder (api.WithAddonPolicies cfg)) = true →
     InResult iamPolicyAmazonEC2ContainerRegistryPowerUser l
     ∧ (managed = false ∨ api.AttachPolicyARNs cfg ≠ [] →
        ReadOnlySeparate →
        makePolicyARN iamPolicyAmazonEC2ContainerRegistryReadOnly ∉ l)
     ∧ (managed = true → api.AttachPolicyARNs cfg = [] →
        makePolicyARN iamPolicyAmazonEC2ContainerRegistryReadOnly ∈ l
        ∧ makePolicyARN iamPolicyAmazonEC2ContainerRegistryPowerUser ∈ l)).
Proof.
  intros Hok. split; [|intros Hib; split; [|split]].
  - intros -> Hib. apply (InResolved_collect _ _ _ _ _ _ Hok).
    unfold collectPolicyNames. rewrite Hib. simpl.
    unfold sets.Insert. repeat case_match; set_solver.
  - apply (InResolved_collect _ _ _ _ _ _ Hok).
    unfold collectPolicyNames. rewrite Hib.
    unfold sets.Insert. repeat case_match; set_solver.
  - intros Hcase [Hdef Hsep].
    rewrite (default_form_elem_of _ _ _ _ _ _ Hok). intros [Hin _].
    revert Hin. unfold collectPolicyNames. rewrite Hib.
    unfold sets.Insert, sets.NewString.
    rewrite !not_elem_of_cons in Hsep.
    destruct Hcase as [->|Hne].
    + repeat case_match; set_solver.
    + rewrite decide_False
        by (by destruct (api.AttachPolicyARNs cfg)).
      repeat case_match; set_solver.
  - intros -> Hnil.
    rewrite !(default_form_elem_of _ _ _ _ _ _ Hok).
    unfold collectPolicyNames. rewrite Hnil, Hib. simpl.
    unfold sets.Insert.
    split;
      (split; [repeat case_match; set_solver
              |intros (a & Ha & _); by apply elem_of_nil in Ha]).
Qed.

(** C6.  With an empty attach-list the resolution succeeds; when OIDC is
    not enabled for the cluster the resolved list contains the CNI
    policy, and when it is enabled the list does not contain it (the CNI
    policy being none of the other policy names). *)
Theorem cni_policy_follows_oidc cl cfg managed ssm :
  api.AttachPolicyARNs cfg = [] →
  ∃ l, resolve cl cfg managed ssm = Ok (gfnt.NewSlice l)
       ∧ (api.IsEnabled (api.WithOIDC cl) = false →
          makePolicyARN iamPolicyAmazonEKSCNIPolicy ∈ l)
       ∧ (api.IsEnabled (api.WithOIDC cl) = true →
          CNISeparate →
          makePolicyARN iamPolicyAmazonEKSCNIPolicy ∉ l).
Proof.
  intros Hnil. eexists. split; [|split].
  - apply (resolve_Ok _ _ _ _ []). rewrite Hnil. constructor.
  - intros Hoidc. apply resolved_elem_of_default, List_elem_of.
    apply elem_of_difference. split; [|set_solver].
    unfold collectPolicyNames. rewrite Hnil, Hoidc. simpl.
    unfold sets.Insert. repeat case_match; set_solver.
  - intros Hoidc [Hdef Hsep].
    rewrite resolved_elem_of_default, List_elem_of.
    rewrite !not_elem_of_cons in Hsep.
    unfold collectPolicyNames. rewrite Hnil, Hoidc. simpl.
    unfold sets.Insert, sets.NewString. repeat case_match; set_solver.
Qed.

(** C7, as amended.  On a successful resolution the result is the
    attach-list as supplied followed by the resolved default names; the
    resolved default names are pairwise distinct, none of them is named
    by an entry of the attach-list, and the whole list is free of
    duplicates exactly when the attach-list is. *)
Theorem resolved_duplicates cl cfg managed ssm l :
  resolve cl cfg managed ssm = Ok (gfnt.NewSlice l) →
  ∃ names,
    l = (makeStringSlice (api.AttachPolicyARNs cfg)
           ++ makePolicyARNs names)%list
    ∧ NoDup (makePolicyARNs names)
    ∧ (∀ policyARN name,
          policyARN ∈ api.AttachPolicyARNs cfg →
          ResourceName policyARN name →
          makePolicyARN name ∉ l)
    ∧ (NoDup l ↔ NoDup (api.AttachPolicyARNs cfg)).
Proof.
  intros Hok.
  destruct (resolve_Ok_inv _ _ _ _ _ Hok) as (ns & Hns & [= ->]).
  eexists. split; [done|]. split; [|split].
  - apply NoDup_fmap_2; [apply _|apply List_NoDup].
  - intros a n Ha Hn.
    by apply (attached_default_form_absent _ _ _ _ _ a n Hok).
  - apply resolved_NoDup, List_NoDup.
Qed.

(** C8.  On a successful resolution the result lists the entries of the
    attach-list first, in the order supplied, then the remaining policy
    names resolved to ARNs in ascending byte-wise order of the names.
    The remaining names are those collected from the flags that no
    attach-list entry names, and sorting any enumeration of them yields
    the same list: the result does not depend on the order in which the
    set is enumerated. *)
Theorem resolved_order cl cfg managed ssm v :
  resolve cl cfg managed ssm = Ok v →
  ∃ names,
    v = gfnt.NewSlice
          ((gfnt.NewString <$> api.AttachPolicyARNs cfg)
             ++ (makePolicyARN <$> names))%list
    ∧ StronglySorted String.le names
    ∧ NoDup names
    ∧ (∀ n, n ∈ names
            ↔ (n ∈ collect cl cfg managed ssm
               ∧ ¬ (∃ a, a ∈ api.AttachPolicyARNs cfg
                         ∧ ResourceName a n)))
    ∧ (∀ keys, NoDup keys → (∀ n, n ∈ keys ↔ n ∈ names) →
               merge_sort String.le keys = names).
Proof.
  intros (ns & Hns & ->)%resolve_Ok_inv.
  eexists. split; [done|]. split; [apply List_sorted|].
  split; [apply List_NoDup|]. split.
  - intros n. rewrite List_elem_of, elem_of_difference, elem_of_list_to_set.
    by rewrite (Forall2_ResourceNameOf_elem_of _ _ _ Hns).
  - intros keys Hnodup Hkeys. apply List_enumeration.
    apply NoDup_Permutation; [done|apply NoDup_elements|].
    intros n. by rewrite Hkeys, List_elem_of, elem_of_elements.
Qed.

(** *** Further properties of the resolution *)

Lemma Forall_ResourceName_Forall2 policyARNs :
  Forall (λ a, ∃ name, ResourceName a name) policyARNs →
  ∃ ns, Forall2 ResourceName policyARNs ns.
Proof.
  induction 1 as [|a rest [n Hn] _ [ns IH]].
  - by exists [].
  - exists (n :: ns). by constructor.
Qed.

(** X4.  [makeManagedPolicies] succeeds exactly when every entry of the
    attach-list is a well-formed ARN with a resource name; in particular
    it always succeeds on an empty attach-list. *)
Theorem resolution_succeeds_iff cl cfg managed ssm :
  (∃ l, resolve cl cfg managed ssm = Ok (gfnt.NewSlice l))
  ↔ Forall (λ a, ∃ name, ResourceNameOf arn_Parse a name)
      (api.AttachPolicyARNs cfg).
Proof.
  split.
  - intros [l (ns & Hns & _)%resolve_Ok_inv].
    induction Hns as [|a n rest ns Hn _ IH]; constructor; [by exists n|done].
  - intros [ns Hns]%Forall_ResourceName_Forall2.
    eexists. by apply (resolve_Ok _ _ _ _ ns).
Qed.

Lemma deleteAttachedNames_prefix good rest names ns :
  Forall2 ResourceName good ns →
  deleteAttachedNames arn_Parse (good ++ rest) names
  = deleteAttachedNames arn_Parse rest (names ∖ list_to_set ns).
Proof.
  intros Hns. revert names.
  induction Hns as [|a n good ns Hn _ IH]; intros names.
  - simpl. f_equal. set_solver.
  - rewrite <- app_comm_cons, (deleteAttachedNames_step a n) by done.
    rewrite IH. f_equal. set_solver.
Qed.

(** X5.  The error of [makeManagedPolicies] is that of the first entry of
    the attach-list that is not well-formed: the parser's error when the
    entry does not parse, and otherwise the message
    ["failed to find ARN resource name: "] followed by the resource. *)
Theorem first_malformed_entry_decides_error cl cfg managed ssm good bad rest :
  api.AttachPolicyARNs cfg = (good ++ bad :: rest)%list →
  Forall (λ a, ∃ name, ResourceName a name) good →
  (∀ err, arn_Parse bad = Err err → resolve cl cfg managed ssm = Err err)
  ∧ (∀ parsedARN,
        arn_Parse bad = Ok parsedARN →
        GoStrings.ContainsByte (arn.Resource parsedARN) slash = false
        ∨ (∃ pre, arn.Resource parsedARN = pre +:+ "/"
                  ∧ GoStrings.ContainsByte pre slash = false) →
        resolve cl cfg managed ssm
        = Err ("failed to find ARN resource name: "
                 +:+ arn.Resource parsedARN)).
Proof.
  intros Hattach [ns Hns]%Forall_ResourceName_Forall2.
  unfold makeManagedPolicies.
  rewrite Hattach, (deleteAttachedNames_prefix _ _ _ ns) by done.
  split.
  - intros err Herr. simpl. by rewrite Herr.
  - intros p Hp Hres. simpl. rewrite Hp. rewrite decide_True; [done|].
    destruct Hres as [Hno|(pre & Hr & Hpre)].
    + left. by apply IndexRune_absent.
    + right. rewrite Hr. change (pre +:+ "/") with (pre +:+ String slash "").
      rewrite IndexRune_first, len_app_sep by done.
      unfold GoStrings.len at 3. simpl. lia.
Qed.

(** X6.  With session-manager access requested, the SSM policy is in
    every successful resolution, also next to an explicit attach-list
    (in its default-bundle form, or as the explicit entry that names it).
    Without it, the resolver does not add the SSM policy (the SSM policy
    being none of the other policy names). *)
Theorem ssm_policy_follows_flag cl cfg managed ssm l :
  resolve cl cfg managed ssm = Ok (gfnt.NewSlice l) →
  (ssm = true → InResult iamPolicyAmazonSSMManagedInstanceCore l)
  ∧ (ssm = false →
     iamPolicyAmazonSSMManagedInstanceCore
       ∉ (iamDefaultNodePolicies
            ++ [ iamPolicyAmazonEKSCNIPolicy;
                 iamPolicyAmazonEC2ContainerRegistryPowerUser;
                 iamPolicyAmazonEC2ContainerRegistryReadOnly;
                 iamPolicyCloudWatchAgentServerPolicy ])%list →
     makePolicyARN iamPolicyAmazonSSMManagedInstanceCore ∉ l).
Proof.
  intros Hok. split.
  - intros ->. apply (InResolved_collect _ _ _ _ _ _ Hok).
    unfold collectPolicyNames, sets.Insert. repeat case_match; set_solver.
  - intros -> Hsep.
    rewrite (default_form_elem_of _ _ _ _ _ _ Hok). intros [Hin _].
    revert Hin. rewrite not_elem_of_app, !not_elem_of_cons in Hsep.
    unfold collectPolicyNames, sets.Insert, sets.NewString.
    repeat case_match; set_solver.
Qed.

(** X7.  With the CloudWatch addon enabled, the CloudWatch agent policy
    is in every successful resolution, also next to an explicit
    attach-list; with it disabled or unset, the resolver does not add it
    (the CloudWatch policy being none of the other policy names). *)
Theorem cloudwatch_policy_follows_flag cl cfg managed ssm l :
  resolve cl cfg managed ssm = Ok (gfnt.NewSlice l) →
  (api.IsEnabled (api.CloudWatch (api.WithAddonPolicies cfg)) = true →
   InResult iamPolicyCloudWatchAgentServerPolicy l)
  ∧ (api.IsEnabled (api.CloudWatch (api.WithAddonPolicies cfg)) = false →
     iamPolicyCloudWatchAgentServerPolicy
       ∉ (iamDefaultNodePolicies
            ++ [ iamPolicyAmazonEKSCNIPolicy;
                 iamPolicyAmazonEC2ContainerRegistryPowerUser;
                 iamPolicyAmazonEC2ContainerRegistryReadOnly;
                 iamPolicyAmazonSSMManagedInstanceCore ])%list →
     makePolicyARN iamPolicyCloudWatchAgentServerPolicy ∉ l).
Proof.
  intros Hok. split.
  - intros Hcw. apply (InResolved_collect _ _ _ _ _ _ Hok).
    unfold collectPolicyNames. rewrite Hcw.
    unfold sets.Insert. repeat case_match; set_solver.
  - intros Hcw Hsep.
    rewrite (default_form_elem_of _ _ _ _ _ _ Hok). intros [Hin _].
    revert Hin. rewrite not_elem_of_app, !not_elem_of_cons in Hsep.
    unfold collectPolicyNames. rewrite Hcw.
    unfold sets.Insert, sets.NewString.
    repeat case_match; set_solver.
Qed.

(** X8.  A non-empty attach-list replaces the default node bundle: the
    only policies the resolver then adds are the SSM policy (when
    session-manager access is requested), the read-write registry policy
    (when image-builder is enabled), the read-only registry policy (for a
    self-managed node group without image-builder) and the CloudWatch
    policy (when that addon is enabled). *)
Theorem attach_list_replaces_default_bundle cl cfg managed ssm l name :
  api.AttachPolicyARNs cfg ≠ [] →
  resolve cl cfg managed ssm = Ok (gfnt.NewSlice l) →
  makePolicyARN name ∈ l →
  (name = iamPolicyAmazonSSMManagedInstanceCore ∧ ssm = true)
  ∨ (name = iamPolicyAmazonEC2ContainerRegistryPowerUser
     ∧ api.IsEnabled (api.ImageBuilder (api.WithAddonPolicies cfg)) = true)
  ∨ (name = iamPolicyAmazonEC2ContainerRegistryReadOnly
     ∧ api.IsEnabled (api.ImageBuilder (api.WithAddonPolicies cfg)) = false
     ∧ managed = false)
  ∨ (name = iamPolicyCloudWatchAgentServerPolicy
     ∧ api.IsEnabled (api.CloudWatch (api.WithAddonPolicies cfg)) = true).
Proof.
  intros Hne Hok [Hin _]%(default_form_elem_of _ _ _ _ _ _ Hok).
  revert Hin. unfold collectPolicyNames.
  rewrite decide_False by (by destruct (api.AttachPolicyARNs cfg)).
  unfold sets.Insert, sets.NewString.
  destruct ssm, managed,
    (api.IsEnabled (api.ImageBuilder (api.WithAddonPolicies cfg))),
    (api.IsEnabled (api.CloudWatch (api.WithAddonPolicies cfg)));
    simpl; set_solver.
Qed.

(** X9.  With an empty attach-list the resolution succeeds and the
    result holds exactly: the default node bundle; the CNI policy unless
    OIDC is enabled; the read-only registry policy for a managed node
    group or without image-builder; the read-write registry policy with
    image-builder; the SSM policy with session-manager access; the
    CloudWatch policy with that addon. *)
Theorem default_resolution_contents cl cfg managed ssm :
  api.AttachPolicyARNs cfg = [] →
  ∃ l, resolve cl cfg managed ssm = Ok (gfnt.NewSlice l)
       ∧ ∀ name,
           makePolicyARN name ∈ l
           ↔ (name ∈ iamDefaultNodePolicies
              ∨ (name = iamPolicyAmazonEKSCNIPolicy
                 ∧ api.IsEnabled (api.WithOIDC cl) = false)
              ∨ (name = iamPolicyAmazonEC2ContainerRegistryReadOnly
                 ∧ (managed = true
                    ∨ api.IsEnabled
                        (api.ImageBuilder (api.WithAddonPolicies cfg))
                      = false))
              ∨ (name = iamPolicyAmazonEC2ContainerRegistryPowerUser
                 ∧ api.IsEnabled
                     (api.ImageBuilder (api.WithAddonPolicies cfg)) = true)
              ∨ (name = iamPolicyAmazonSSMManagedInstanceCore ∧ ssm = true)
              ∨ (name = iamPolicyCloudWatchAgentServerPolicy
                 ∧ api.IsEnabled
                     (api.CloudWatch (api.WithAddonPolicies cfg)) = true)).
Proof.
  intros Hnil. eexists. split.
  - apply (resolve_Ok _ _ _ _ []). rewrite Hnil. constructor.
  - intros name. rewrite resolved_elem_of_default, List_elem_of.
    unfold collectPolicyNames. rewrite Hnil. simpl.
    unfold sets.Insert, sets.NewString.
    destruct ssm, managed, (api.IsEnabled (api.WithOIDC cl)),
      (api.IsEnabled (api.ImageBuilder (api.WithAddonPolicies cfg))),
      (api.IsEnabled (api.CloudWatch (api.WithAddonPolicies cfg)));
      simpl; set_solver.
Qed.

End ManagedPoliciesFacts.

(** ** Facts about the recording template builder *)

(** A measure [m] of the log that is additive over appended calls (the
    statement names, the statements of some kind, ...) is the sum of what
    each guarded group of calls contributes. *)
Section RecorderFacts.
Context {X : Type} (m : list call → list X).
Hypothesis m_snoc : ∀ t c, m (t ++ [c])%list = (m t ++ m [c])%list.

Lemma measure_attach name refRole resources actions t :
  m (attachAllowPolicy name refRole resources actions t)
  = (m t ++ m [CallAttachAllowPolicy name refRole resources actions])%list.
Proof. apply m_snoc. Qed.

Lemma measure_when (cond : bool) (body : list call → list call) t l :
  (∀ t, m (body t) = (m t ++ l)%list) →
  m (when cond body t) = (m t ++ if cond then l else [])%list.
Proof.
  intros Hbody. unfold when. destruct cond; [done|]. by rewrite app_nil_r.
Qed.
End RecorderFacts.

(** Pushes the measure [m] through the calls of a recorded run. *)
Ltac measure_steps m Hm :=
  repeat first
    [ erewrite (measure_when m)
        by (intros; rewrite ?(measure_attach m Hm), <- ?app_assoc; reflexivity)
    | rewrite (measure_attach m Hm) ].

(** ** Facts about [createRole] *)

Section CreateRoleFacts.

Variable iamDefaultNodePolicies : list string.
Variable iamPolicyAmazonEKSCNIPolicy : string.
Variable iamPolicyAmazonEC2ContainerRegistryPowerUser : string.
Variable iamPolicyAmazonEC2ContainerRegistryReadOnly : string.
Variable iamPolicyCloudWatchAgentServerPolicy : string.
Variable iamPolicyAmazonSSMManagedInstanceCore : string.
Variable arn_Parse : string → result arn.ARN.
Variable cfnIAMInstanceRoleName : string.
Variable MakeServiceRef : string → gfnt.Value.

Local Abbreviation resolve :=
  (makeManagedPolicies iamDefaultNodePolicies iamPolicyAmazonEKSCNIPolicy
     iamPolicyAmazonEC2ContainerRegistryPowerUser
     iamPolicyAmazonEC2ContainerRegistryReadOnly
     iamPolicyCloudWatchAgentServerPolicy
     iamPolicyAmazonSSMManagedInstanceCore arn_Parse).
Local Abbreviation assemble :=
  (createRole iamDefaultNodePolicies iamPolicyAmazonEKSCNIPolicy
     iamPolicyAmazonEC2ContainerRegistryPowerUser
     iamPolicyAmazonEC2ContainerRegistryReadOnly
     iamPolicyCloudWatchAgentServerPolicy
     iamPolicyAmazonSSMManagedInstanceCore arn_Parse
     cfnIAMInstanceRoleName MakeServiceRef).
Local Abbreviation record :=
  (createRole (T := list call) iamDefaultNodePolicies
     iamPolicyAmazonEKSCNIPolicy
     iamPolicyAmazonEC2ContainerRegistryPowerUser
     iamPolicyAmazonEC2ContainerRegistryReadOnly
     iamPolicyCloudWatchAgentServerPolicy
     iamPolicyAmazonSSMManagedInstanceCore arn_Parse
     cfnIAMInstanceRoleName MakeServiceRef).

(** C2.  When the attach-list has an entry that does not parse, or whose
    resource has no ['/'], or whose resource has its first ['/'] as the
    final character, [makeManagedPolicies] returns an error and no
    value, and [createRole] returns that error with the template as it
    received it: whatever the template builder is, no [newResource] or
    [attachAllowPolicy] call has been made on it. *)
Theorem malformed_attach_aborts {T : Type} `{!cfnTemplate T} (t : T)
    cl cfg managed ssm :
  Exists (Malformed arn_Parse) (api.AttachPolicyARNs cfg) →
  ∃ err, resolve cl cfg managed ssm = Err err
         ∧ assemble t cl cfg managed ssm = (Some err, t).
Proof.
  intros Hbad.
  destruct (resolve_Err iamDefaultNodePolicies iamPolicyAmazonEKSCNIPolicy
              iamPolicyAmazonEC2ContainerRegistryPowerUser
              iamPolicyAmazonEC2ContainerRegistryReadOnly
              iamPolicyCloudWatchAgentServerPolicy
              iamPolicyAmazonSSMManagedInstanceCore arn_Parse
              cl cfg managed ssm Hbad) as [err Herr].
  exists err. split; [done|]. unfold createRole. by rewrite Herr.
Qed.

(** Rewrites the hypothesis [Hlog : record [] ... = (None, log)] into an
    equation for [m log], one summand per guarded group of calls. *)
Ltac record_inv Hlog m Hm :=
  unfold createRole in Hlog;
  destruct (makeManagedPolicies _ _ _ _ _ _ _ _ _ _ _) in Hlog;
    [|discriminate Hlog];
  cbv zeta in Hlog;
  set (role := gfniam.Build_Role _ _ _ _ _) in Hlog; clearbody role;
  change (newResource ?n role [])
    with (gfnt.MakeRef n, [CallNewResource n role]) in Hlog;
  cbv iota in Hlog;
  apply (f_equal snd) in Hlog; cbn [snd] in Hlog;
  apply (f_equal m) in Hlog;
  repeat first
    [ erewrite (measure_when m) in Hlog
        by (intros; rewrite ?(measure_attach m Hm), <- ?app_assoc;
            reflexivity)
    | rewrite (measure_attach m Hm) in Hlog ].

Lemma statementNames_snoc t c :
  statementNames (t ++ [c])%list
  = (statementNames t ++ statementNames [c])%list.
Proof. apply omap_app. Qed.

Lemma statementNames_attach name refRole resources actions :
  statementNames [CallAttachAllowPolicy name refRole resources actions]
  = [name].
Proof. reflexivity. Qed.

Lemma statementNames_new name role :
  statementNames [CallNewResource name role] = [].
Proof. reflexivity. Qed.

Ltac flag_cases cfg :=
  destruct (api.IsEnabled (api.AutoScaler (api.WithAddonPolicies cfg))),
    (api.IsEnabled (api.AppMesh (api.WithAddonPolicies cfg))),
    (api.IsEnabled (api.AppMeshPreview (api.WithAddonPolicies cfg))),
    (api.IsEnabled (api.EBS (api.WithAddonPolicies cfg))),
    (api.IsEnabled (api.FSX (api.WithAddonPolicies cfg))),
    (api.IsEnabled (api.EFS (api.WithAddonPolicies cfg))),
    (api.IsEnabled (api.ALBIngress (api.WithAddonPolicies cfg))),
    (api.IsEnabled (api.XRay (api.WithAddonPolicies cfg))).

Lemma sublist_same {A} (l : list A) : sublist l l.
Proof. done. Qed.

(** C10.  In a successful [createRole] invocation the statement names
    of the [attachAllowPolicy] calls made on the template are pairwise
    distinct. *)
Theorem statement_names_distinct cl cfg managed ssm log :
  record [] cl cfg managed ssm = (None, log) →
  NoDup (statementNames log).
Proof.
  intros Hlog. record_inv Hlog statementNames statementNames_snoc.
  rewrite <- Hlog. clear Hlog.
  destruct (api.IsEnabled (api.CertManager _)),
    (api.IsEnabled (api.ExternalDNS _));
    measure_steps statementNames statementNames_snoc;
    rewrite statementNames_new, !statementNames_attach.
  all: eapply sublist_NoDup; cycle 1;
    [ repeat apply sublist_app;
      try (destruct (api.IsEnabled _);
           [apply sublist_same|apply sublist_nil_l]);
      apply sublist_same
    | apply (bool_decide_unpack _); vm_compute; exact I ].
Qed.

Lemma hostedZoneChangeSets_snoc t c :
  hostedZoneChangeSets (t ++ [c])%list
  = (hostedZoneChangeSets t ++ hostedZoneChangeSets [c])%list.
Proof. apply filter_app. Qed.

Lemma statementActionLists_snoc name t c :
  statementActionLists name (t ++ [c])%list
  = (statementActionLists name t ++ statementActionLists name [c])%list.
Proof. apply omap_app. Qed.

(** Evaluates the measure of each single recorded call. *)
Ltac eval_singletons m :=
  repeat match goal with
    | |- context [m [?c]] =>
        let r := eval vm_compute in (m [c]) in
        change (m [c]) with r
    end.

(** C5.  With certificate-manager and external-DNS both enabled, a
    successful [createRole] attaches exactly one hosted-zone
    change-record-sets statement, the certificate-manager one, and no
    statement under the external-DNS names; the action list of the
    hosted-zone listing statement is a strict superset of the one
    attached when only certificate-manager is enabled, and contains
    [route53:ListHostedZones] and [route53:ListTagsForResource]. *)
Theorem cert_manager_with_external_dns
    cl cfg managed ssm log cl' cfg' managed' ssm' log' :
  api.IsEnabled (api.CertManager (api.WithAddonPolicies cfg)) = true →
  api.IsEnabled (api.ExternalDNS (api.WithAddonPolicies cfg)) = true →
  record [] cl cfg managed ssm = (None, log) →
  api.IsEnabled (api.CertManager (api.WithAddonPolicies cfg')) = true →
  api.IsEnabled (api.ExternalDNS (api.WithAddonPolicies cfg')) = false →
  record [] cl' cfg' managed' ssm' = (None, log') →
  hostedZoneChangeSets log
    = [ CallAttachAllowPolicy "PolicyCertManagerChangeSet"
          (gfnt.MakeRef cfnIAMInstanceRoleName)
          (ResourcesValue (addARNPartitionPrefix "route53:::hostedzone/*"))
          [ "route53:ChangeResourceRecordSets" ] ]
  ∧ ("PolicyExternalDNSChangeSet" ∉ statementNames log)
  ∧ ("PolicyExternalDNSHostedZones" ∉ statementNames log)
  ∧ ∃ both only,
      statementActions "PolicyCertManagerHostedZones" log = Some both
      ∧ statementActions "PolicyCertManagerHostedZones" log' = Some only
      ∧ (only ⊆ both) ∧ ¬ (both ⊆ only)
      ∧ "route53:ListHostedZones" ∈ both
      ∧ "route53:ListTagsForResource" ∈ both.
Proof.
  intros Hcm Hed Hlog Hcm' Hed' Hlog'.
  split; [|split; [|split]].
  - record_inv Hlog hostedZoneChangeSets hostedZoneChangeSets_snoc.
    rewrite <- Hlog. clear Hlog. rewrite Hcm.
    measure_steps hostedZoneChangeSets hostedZoneChangeSets_snoc.
    rewrite Hed. eval_singletons hostedZoneChangeSets.
    flag_cases cfg; reflexivity.
  - record_inv Hlog statementNames statementNames_snoc.
    rewrite <- Hlog. clear Hlog. rewrite Hcm.
    measure_steps statementNames statementNames_snoc.
    rewrite statementNames_new, !statementNames_attach.
    flag_cases cfg; apply (bool_decide_unpack _); vm_compute; exact I.
  - record_inv Hlog statementNames statementNames_snoc.
    rewrite <- Hlog. clear Hlog. rewrite Hcm.
    measure_steps statementNames statementNames_snoc.
    rewrite statementNames_new, !statementNames_attach.
    flag_cases cfg; apply (bool_decide_unpack _); vm_compute; exact I.
  - exists [ "route53:ListResourceRecordSets"; "route53:ListHostedZonesByName";
             "route53:ListHostedZones"; "route53:ListTagsForResource" ],
           [ "route53:ListResourceRecordSets";
             "route53:ListHostedZonesByName" ].
    split; [|split; [|split; [|split; [|split]]]].
    + unfold statementActions.
      record_inv Hlog (statementActionLists "PolicyCertManagerHostedZones")
        (statementActionLists_snoc "PolicyCertManagerHostedZones").
      rewrite <- Hlog. clear Hlog. rewrite Hcm.
      measure_steps (statementActionLists "PolicyCertManagerHostedZones")
        (statementActionLists_snoc "PolicyCertManagerHostedZones").
      rewrite Hed.
      eval_singletons (statementActionLists "PolicyCertManagerHostedZones").
      flag_cases cfg; reflexivity.
    + unfold statementActions.
      record_inv Hlog' (statementActionLists "PolicyCertManagerHostedZones")
        (statementActionLists_snoc "PolicyCertManagerHostedZones").
      rewrite <- Hlog'. clear Hlog'. rewrite Hcm'.
      measure_steps (statementActionLists "PolicyCertManagerHostedZones")
        (statementActionLists_snoc "PolicyCertManagerHostedZones").
      rewrite Hed'.
      eval_singletons (statementActionLists "PolicyCertManagerHostedZones").
      flag_cases cfg'; reflexivity.
    + apply (bool_decide_unpack _); vm_compute; exact I.
    + apply (bool_decide_unpack _); vm_compute; exact I.
    + apply (bool_decide_unpack _); vm_compute; exact I.
    + apply (bool_decide_unpack _); vm_compute; exact I.
Qed.
(** *** Further properties of [createRole] *)

(** X10.  [createRole] has no failure of its own: it returns a nil error
    exactly when every entry of the attach-list is a well-formed ARN with
    a resource name, whatever the template builder is. *)
Theorem createRole_succeeds_iff {T : Type} `{!cfnTemplate T} (t : T)
    cl cfg managed ssm :
  fst (assemble t cl cfg managed ssm) = None
  ↔ Forall (λ a, ∃ name, ResourceNameOf arn_Parse a name)
      (api.AttachPolicyARNs cfg).
Proof.
  unfold createRole. split.
  - destruct (resolve cl cfg managed ssm) as [v|e] eqn:Hres; [|done].
    intros _.
    apply resolve_Ok_inv in Hres as (ns & Hns & _).
    induction Hns as [|a n rest ns Hn _ IH]; constructor; [by exists n|done].
  - intros [ns Hns]%Forall_ResourceName_Forall2.
    rewrite (resolve_Ok _ _ _ _ _ _ _ _ _ _ _ ns Hns).
    cbv zeta. by destruct (newResource _ _ _).
Qed.

Lemma id_snoc (t : list call) c : id (t ++ [c])%list = (id t ++ id [c])%list.
Proof. reflexivity. Qed.

(** Rewrites [Hlog : createRole ... = (None, log)], after the resolution
    has been found to succeed, into an equation for [log] itself, one
    summand per guarded group of calls; the role stays visible. *)
Ltac record_log Hlog :=
  cbv zeta in Hlog;
  set (role := gfniam.Build_Role _ _ _ _ _) in Hlog;
  change (newResource ?n role [])
    with (gfnt.MakeRef n, [CallNewResource n role]) in Hlog;
  cbv iota in Hlog;
  apply (f_equal snd) in Hlog; cbn [snd] in Hlog;
  apply (f_equal (@id (list call))) in Hlog;
  repeat first
    [ erewrite (measure_when (@id (list call))) in Hlog
        by (intros; rewrite ?(measure_attach (@id (list call)) id_snoc),
              <- ?app_assoc; reflexivity)
    | rewrite (measure_attach (@id (list call)) id_snoc) in Hlog ].

(** Splits [Forall P] over the summands of a recorded log and leaves one
    goal [P c] per call [c], handed to [tac]. *)
Ltac forall_calls tac :=
  repeat (apply Forall_app; split);
  try match goal with
      | |- Forall _ (if ?b then _ else _) => destruct b; [|by constructor]
      end;
  unfold id; cbn [app];
  repeat (constructor; [tac|]); try by constructor.

(** X11.  On success the first call on the template registers the role
    under the instance-role name: its path is ["/"], its managed policies
    are the value [makeManagedPolicies] returned, and it has a name and a
    permissions boundary only when the configuration gives non-empty
    ones.  Every later call is an [attachAllowPolicy] on the reference
    that [newResource] returned. *)
Theorem role_registered_first cl cfg managed ssm log :
  record [] cl cfg managed ssm = (None, log) →
  ∃ arns rest,
    resolve cl cfg managed ssm = Ok arns
    ∧ log
      = CallNewResource cfnIAMInstanceRoleName
          {| gfniam.Path := gfnt.NewString "/";
             gfniam.AssumeRolePolicyDocument :=
               cft.MakeAssumeRolePolicyDocumentForServices
                 [MakeServiceRef "EC2"];
             gfniam.ManagedPolicyArns := arns;
             gfniam.RoleName :=
               if decide (api.InstanceRoleName cfg = "") then None
               else Some (gfnt.NewString (api.InstanceRoleName cfg));
             gfniam.PermissionsBoundary :=
               if decide (api.InstanceRolePermissionsBoundary cfg = "")
               then None
               else Some (gfnt.NewString
                            (api.InstanceRolePermissionsBoundary cfg)) |}
          :: rest
    ∧ Forall (λ c, ∃ name resources actions,
                 c = CallAttachAllowPolicy name
                       (gfnt.MakeRef cfnIAMInstanceRoleName)
                       resources actions) rest.
Proof.
  unfold createRole.
  destruct (resolve cl cfg managed ssm) as [arns|e]; [|done].
  intros Hlog. exists arns.
  record_log Hlog.
  assert (Hrole : role
    = {| gfniam.Path := gfnt.NewString "/";
         gfniam.AssumeRolePolicyDocument :=
           cft.MakeAssumeRolePolicyDocumentForServices [MakeServiceRef "EC2"];
         gfniam.ManagedPolicyArns := arns;
         gfniam.RoleName :=
           if decide (api.InstanceRoleName cfg = "") then None
           else Some (gfnt.NewString (api.InstanceRoleName cfg));
         gfniam.PermissionsBoundary :=
           if decide (api.InstanceRolePermissionsBoundary cfg = "")
           then None
           else Some (gfnt.NewString
                        (api.InstanceRolePermissionsBoundary cfg)) |}).
  { subst role. by repeat case_decide. }
  rewrite <- Hrole. clearbody role. clear Hrole.
  destruct (api.IsEnabled (api.CertManager _)),
    (api.IsEnabled (api.ExternalDNS _));
    repeat first
      [ erewrite (measure_when (@id (list call))) in Hlog
          by (intros; rewrite ?(measure_attach (@id (list call)) id_snoc),
                <- ?app_assoc; reflexivity)
      | rewrite (measure_attach (@id (list call)) id_snoc) in Hlog ];
    rewrite <- !app_assoc in Hlog;
    change (id [CallNewResource ?n ?r] ++ ?l)%list
      with (CallNewResource n r :: l) in Hlog;
    change (id log) with log in Hlog;
    (eexists; split; [done|]; split; [symmetry; exact Hlog|]);
    forall_calls ltac:(by eexists _, _, _).
Qed.

(** X12.  On success the statements are attached in a fixed order, each
    group only when its addon is enabled: autoscaler, then the three
    certificate-manager statements or else the two external-DNS ones,
    then app-mesh, app-mesh-preview, EBS, the two FSX statements, the two
    EFS statements, ALB-ingress and X-Ray. *)
Theorem statement_names_in_order cl cfg managed ssm log :
  record [] cl cfg managed ssm = (None, log) →
  let addons := api.WithAddonPolicies cfg in
  statementNames log
  = ((if api.IsEnabled (api.AutoScaler addons)
      then ["PolicyAutoScaling"] else [])
     ++ (if api.IsEnabled (api.CertManager addons)
         then ["PolicyCertManagerChangeSet"; "PolicyCertManagerHostedZones";
               "PolicyCertManagerGetChange"]
         else if api.IsEnabled (api.ExternalDNS addons)
         then ["PolicyExternalDNSChangeSet"; "PolicyExternalDNSHostedZones"]
         else [])
     ++ (if api.IsEnabled (api.AppMesh addons) then ["PolicyAppMesh"] else [])
     ++ (if api.IsEnabled (api.AppMeshPreview addons)
         then ["PolicyAppMeshPreview"] else [])
     ++ (if api.IsEnabled (api.EBS addons) then ["PolicyEBS"] else [])
     ++ (if api.IsEnabled (api.FSX addons)
         then ["PolicyFSX"; "PolicyServiceLinkRole"] else [])
     ++ (if api.IsEnabled (api.EFS addons)
         then ["PolicyEFS"; "PolicyEFSEC2"] else [])
     ++ (if api.IsEnabled (api.ALBIngress addons)
         then ["PolicyALBIngress"] else [])
     ++ (if api.IsEnabled (api.XRay addons) then ["PolicyXRay"] else []))%list.
Proof.
  intros Hlog addons. subst addons.
  record_inv Hlog statementNames statementNames_snoc.
  rewrite <- Hlog. clear Hlog.
  destruct (api.IsEnabled (api.CertManager _)),
    (api.IsEnabled (api.ExternalDNS _));
    measure_steps statementNames statementNames_snoc;
    rewrite statementNames_new, !statementNames_attach;
    rewrite <- !app_assoc; reflexivity.
Qed.

(** X13.  On success every statement is attached with a non-empty action
    list that names no action twice. *)
Theorem statement_actions_nonempty_distinct cl cfg managed ssm log :
  createRole (T := list call) iamDefaultNodePolicies
    iamPolicyAmazonEKSCNIPolicy iamPolicyAmazonEC2ContainerRegistryPowerUser
    iamPolicyAmazonEC2ContainerRegistryReadOnly
    iamPolicyCloudWatchAgentServerPolicy
    iamPolicyAmazonSSMManagedInstanceCore arn_Parse
    cfnIAMInstanceRoleName MakeServiceRef [] cl cfg managed ssm
  = (None, log) →
  Forall (λ c, match c with
               | CallAttachAllowPolicy _ _ _ actions =>
                   actions ≠ [] ∧ NoDup actions
               | CallNewResource _ _ => True
               end) log.
Proof.
  intros Hlog. record_inv Hlog (@id (list call)) id_snoc.
  change log with (id log). rewrite <- Hlog. clear Hlog.
  destruct (api.IsEnabled (api.CertManager _)),
    (api.IsEnabled (api.ExternalDNS _));
    measure_steps (@id (list call)) id_snoc;
    forall_calls
      ltac:(first [ exact I
                  | split; [done
                           |apply (bool_decide_unpack _); vm_compute;
                            exact I] ]).
Qed.

(** X14.  On success the resource scope of every statement is the one
    that goes with its name: the wildcard, except for the hosted-zone
    change-set, get-change and service-linked-role statements, which are
    scoped to their partition-qualified patterns. *)
Theorem statement_scopes cl cfg managed ssm log :
  record [] cl cfg managed ssm = (None, log) →
  Forall (λ c, match c with
               | CallAttachAllowPolicy name _ resources _ =>
                   resources = statementScope name
               | CallNewResource _ _ => True
               end) log.
Proof.
  intros Hlog. record_inv Hlog (@id (list call)) id_snoc.
  change log with (id log). rewrite <- Hlog. clear Hlog.
  destruct (api.IsEnabled (api.CertManager _)),
    (api.IsEnabled (api.ExternalDNS _));
    measure_steps (@id (list call)) id_snoc;
    forall_calls ltac:(first [exact I|reflexivity]).
Qed.

Lemma if_nil {A} (b : bool) : (if b then [] else []) = @nil A.
Proof. by destruct b. Qed.

(** Removes the summands of a measured log that contribute nothing. *)
Ltac drop_empty :=
  repeat first
    [ rewrite app_nil_r | rewrite if_nil | rewrite app_nil_l ].

(** X15.  App-mesh and app-mesh-preview are attached independently of
    each other and of every other flag: each statement is present exactly
    when its own addon is enabled, and carries the shared base actions
    followed by its own service wildcard. *)
Theorem app_mesh_statements_independent cl cfg managed ssm log :
  record [] cl cfg managed ssm = (None, log) →
  statementActions "PolicyAppMesh" log
  = (if api.IsEnabled (api.AppMesh (api.WithAddonPolicies cfg))
     then Some (appMeshActions ++ ["appmesh:*"])%list else None)
  ∧ statementActions "PolicyAppMeshPreview" log
    = (if api.IsEnabled (api.AppMeshPreview (api.WithAddonPolicies cfg))
       then Some (appMeshActions ++ ["appmesh-preview:*"])%list else None).
Proof.
  intros Hlog. unfold statementActions. split.
  - record_inv Hlog (statementActionLists "PolicyAppMesh")
      (statementActionLists_snoc "PolicyAppMesh").
    rewrite <- Hlog. clear Hlog.
    destruct (api.IsEnabled (api.CertManager _)),
      (api.IsEnabled (api.ExternalDNS _));
      measure_steps (statementActionLists "PolicyAppMesh")
        (statementActionLists_snoc "PolicyAppMesh");
      eval_singletons (statementActionLists "PolicyAppMesh");
      drop_empty;
      by destruct (api.IsEnabled (api.AppMesh _)).
  - record_inv Hlog (statementActionLists "PolicyAppMeshPreview")
      (statementActionLists_snoc "PolicyAppMeshPreview").
    rewrite <- Hlog. clear Hlog.
    destruct (api.IsEnabled (api.CertManager _)),
      (api.IsEnabled (api.ExternalDNS _));
      measure_steps (statementActionLists "PolicyAppMeshPreview")
        (statementActionLists_snoc "PolicyAppMeshPreview");
      eval_singletons (statementActionLists "PolicyAppMeshPreview");
      drop_empty;
      by destruct (api.IsEnabled (api.AppMeshPreview _)).
Qed.

(** X16.  With external-DNS enabled and certificate-manager not, a
    successful [createRole] attaches exactly one hosted-zone
    change-record-sets statement, the external-DNS one, no statement
    under the certificate-manager names, and the external-DNS listing
    statement with its three actions. *)
Theorem external_dns_without_cert_manager cl cfg managed ssm log :
  api.IsEnabled (api.CertManager (api.WithAddonPolicies cfg)) = false →
  api.IsEnabled (api.ExternalDNS (api.WithAddonPolicies cfg)) = true →
  record [] cl cfg managed ssm = (None, log) →
  hostedZoneChangeSets log
  = [ CallAttachAllowPolicy "PolicyExternalDNSChangeSet"
        (gfnt.MakeRef cfnIAMInstanceRoleName)
        (ResourcesValue (addARNPartitionPrefix "route53:::hostedzone/*"))
        [ "route53:ChangeResourceRecordSets" ] ]
  ∧ (∀ name, name ∈ ["PolicyCertManagerChangeSet";
                     "PolicyCertManagerHostedZones";
                     "PolicyCertManagerGetChange"] →
             name ∉ statementNames log)
  ∧ statementActions "PolicyExternalDNSHostedZones" log
    = Some [ "route53:ListHostedZones"; "route53:ListResourceRecordSets";
             "route53:ListTagsForResource" ].
Proof.
  intros Hcm Hed Hlog. split; [|split].
  - record_inv Hlog hostedZoneChangeSets hostedZoneChangeSets_snoc.
    rewrite <- Hlog. clear Hlog. rewrite Hcm, Hed.
    measure_steps hostedZoneChangeSets hostedZoneChangeSets_snoc.
    eval_singletons hostedZoneChangeSets.
    flag_cases cfg; reflexivity.
  - record_inv Hlog statementNames statementNames_snoc.
    rewrite <- Hlog. clear Hlog. rewrite Hcm, Hed.
    measure_steps statementNames statementNames_snoc.
    rewrite statementNames_new, !statementNames_attach.
    intros name Hname.
    repeat (apply elem_of_cons in Hname as [->|Hname]);
      [| | |by apply elem_of_nil in Hname];
      flag_cases cfg; apply (bool_decide_unpack _); vm_compute; exact I.
  - unfold statementActions.
    record_inv Hlog (statementActionLists "PolicyExternalDNSHostedZones")
      (statementActionLists_snoc "PolicyExternalDNSHostedZones").
    rewrite <- Hlog. clear Hlog. rewrite Hcm, Hed.
    measure_steps (statementActionLists "PolicyExternalDNSHostedZones")
      (statementActionLists_snoc "PolicyExternalDNSHostedZones").
    eval_singletons (statementActionLists "PolicyExternalDNSHostedZones").
    flag_cases cfg; reflexivity.
Qed.

End CreateRoleFacts.

(** ** The theorems at concrete configurations *)

Module ExampleFacts.
Import Reference Examples.

(** [String.le] is the byte-wise order of [sort.Strings]: a proper prefix
    comes first, and upper-case letters precede ['_'] and lower-case
    ones. *)
Lemma byte_order_examples :
  String.le "AmazonEC2ContainerRegistryPowerUser"
    "AmazonEC2ContainerRegistryReadOnly"
  ∧ String.le "AmazonEKS" "AmazonEKSWorkerNodePolicy"
  ∧ String.le "AmazonEKSWorkerNodePolicy" "AmazonEKS_CNI_Policy"
  ∧ ¬ String.le "a" "Z".
Proof. repeat split; apply (bool_decide_unpack _); vm_compute; exact I. Qed.

Lemma workerNodeARN_name :
  ResourceNameOf Parse workerNodeARN "AmazonEKSWorkerNodePolicy".
Proof.
  exists {| arn.Partition := "aws"; arn.Service := "iam"; arn.Region := "";
            arn.AccountID := "aws";
            arn.Resource := "policy/AmazonEKSWorkerNodePolicy" |}, "policy".
  repeat split; done.
Qed.

Lemma readOnlyARN_name :
  ResourceNameOf Parse readOnlyARN "AmazonEC2ContainerRegistryReadOnly".
Proof.
  exists {| arn.Partition := "aws"; arn.Service := "iam"; arn.Region := "";
            arn.AccountID := "aws";
            arn.Resource := "policy/AmazonEC2ContainerRegistryReadOnly" |},
         "policy".
  repeat split; done.
Qed.

Lemma roleARN_malformed : Malformed Parse roleARN.
Proof.
  right.
  exists {| arn.Partition := "aws"; arn.Service := "iam"; arn.Region := "";
            arn.AccountID := "123456789012"; arn.Resource := "role" |}.
  split; [done|]. by left.
Qed.

Lemma separate_ReadOnly :
  ReadOnlyIsSeparate iamDefaultNodePolicies iamPolicyAmazonEKSCNIPolicy
    iamPolicyAmazonEC2ContainerRegistryPowerUser
    iamPolicyAmazonEC2ContainerRegistryReadOnly
    iamPolicyCloudWatchAgentServerPolicy
    iamPolicyAmazonSSMManagedInstanceCore.
Proof. split; apply (bool_decide_unpack _); vm_compute; exact I. Qed.

Lemma separate_CNI :
  CNIPolicyIsSeparate iamDefaultNodePolicies iamPolicyAmazonEKSCNIPolicy
    iamPolicyAmazonEC2ContainerRegistryPowerUser
    iamPolicyAmazonEC2ContainerRegistryReadOnly
    iamPolicyCloudWatchAgentServerPolicy
    iamPolicyAmazonSSMManagedInstanceCore.
Proof. split; apply (bool_decide_unpack _); vm_compute; exact I. Qed.

End ExampleFacts.

(** A managed node group with the default attach-list, and with
    attach-lists that do not and do name the read-only registry policy. *)
Lemma managed_default_has_registry_read_only_witness :
  (∃ l, Reference.makeManagedPolicies (Reference.cluster None)
          (Reference.nodeGroup [] Reference.noAddons) true false
        = Ok (gfnt.NewSlice l)
        ∧ makePolicyARN "AmazonEC2ContainerRegistryReadOnly" ∈ l)
  ∧ (makePolicyARN "AmazonEC2ContainerRegistryReadOnly"
       ∉ [gfnt.NewString Examples.workerNodeARN])
  ∧ InResolved Reference.Parse "AmazonEC2ContainerRegistryReadOnly"
      [gfnt.NewString Examples.readOnlyARN].
Proof.
  split; [|split].
  - exact (proj1 (managed_default_has_registry_read_only Reference.iamDefaultNodePolicies
           Reference.iamPolicyAmazonEKSCNIPolicy
           Reference.iamPolicyAmazonEC2ContainerRegistryPowerUser
           Reference.iamPolicyAmazonEC2ContainerRegistryReadOnly
           Reference.iamPolicyCloudWatchAgentServerPolicy
           Reference.iamPolicyAmazonSSMManagedInstanceCore Reference.Parse
                    (Reference.cluster None)
                    (Reference.nodeGroup [] Reference.noAddons) false)
             eq_refl).
  - apply (proj2 (managed_default_has_registry_read_only Reference.iamDefaultNodePolicies
           Reference.iamPolicyAmazonEKSCNIPolicy
           Reference.iamPolicyAmazonEC2ContainerRegistryPowerUser
           Reference.iamPolicyAmazonEC2ContainerRegistryReadOnly
           Reference.iamPolicyCloudWatchAgentServerPolicy
           Reference.iamPolicyAmazonSSMManagedInstanceCore Reference.Parse
                    (Reference.cluster None)
                    (Reference.nodeGroup [Examples.workerNodeARN]
                       Reference.noAddons) false)).
    + discriminate.
    + apply (bool_decide_unpack _). vm_compute. exact I.
    + by vm_compute.
  - apply (proj2 (managed_default_has_registry_read_only Reference.iamDefaultNodePolicies
           Reference.iamPolicyAmazonEKSCNIPolicy
           Reference.iamPolicyAmazonEC2ContainerRegistryPowerUser
           Reference.iamPolicyAmazonEC2ContainerRegistryReadOnly
           Reference.iamPolicyCloudWatchAgentServerPolicy
           Reference.iamPolicyAmazonSSMManagedInstanceCore Reference.Parse
                    (Reference.cluster None)
                    (Reference.nodeGroup [Examples.readOnlyARN]
                       Reference.noAddons) false)).
    + discriminate.
    + apply (bool_decide_unpack _). vm_compute. exact I.
    + by vm_compute.
    + exists Examples.readOnlyARN. split.
      * apply list_elem_of_here.
      * exact ExampleFacts.readOnlyARN_name.
Defined.

(** C1 as stated fails: a managed node group with an attach-list that
    does not name the read-only registry policy resolves to that
    attach-list alone. *)
Lemma managed_attach_list_lacks_registry_read_only :
  Reference.makeManagedPolicies (Reference.cluster None)
    (Reference.nodeGroup [Examples.workerNodeARN] Reference.noAddons)
    true false
  = Ok (gfnt.NewSlice [gfnt.NewString Examples.workerNodeARN])
  ∧ ¬ InResolved Reference.Parse "AmazonEC2ContainerRegistryReadOnly"
        [gfnt.NewString Examples.workerNodeARN].
Proof.
  split; [by vm_compute|].
  intros [Hin|(a & Ha & Hin)].
  - by apply list_elem_of_singleton in Hin.
  - apply list_elem_of_singleton in Hin. injection Hin as ->.
    by pose proof (ResourceNameOf_unique _ _ _ _ Ha ExampleFacts.workerNodeARN_name).
Qed.

(** A malformed attach-list entry: the resource [role] has no ['/']. *)
Lemma malformed_attach_aborts_witness :
  ∃ err, Reference.makeManagedPolicies (Reference.cluster None)
           (Reference.nodeGroup [Examples.roleARN] Reference.noAddons)
           false false
         = Err err
         ∧ Reference.createRole [] (Reference.cluster None)
             (Reference.nodeGroup [Examples.roleARN] Reference.noAddons)
             false false
           = (Some err, []).
Proof.
  apply (malformed_attach_aborts Reference.iamDefaultNodePolicies
           Reference.iamPolicyAmazonEKSCNIPolicy
           Reference.iamPolicyAmazonEC2ContainerRegistryPowerUser
           Reference.iamPolicyAmazonEC2ContainerRegistryReadOnly
           Reference.iamPolicyCloudWatchAgentServerPolicy
           Reference.iamPolicyAmazonSSMManagedInstanceCore Reference.Parse
           Reference.cfnIAMInstanceRoleName Reference.MakeServiceRef []
           (Reference.cluster None)
           (Reference.nodeGroup [Examples.roleARN] Reference.noAddons)
           false false).
  simpl. apply Exists_cons_hd. exact ExampleFacts.roleARN_malformed.
Defined.

(** A self-managed node group whose attach-list names the read-only
    registry policy: the explicit entry stands, the default form is
    gone. *)
Lemma explicit_entry_overrides_default_witness :
  gfnt.NewString Examples.readOnlyARN ∈ [gfnt.NewString Examples.readOnlyARN]
  ∧ makePolicyARN "AmazonEC2ContainerRegistryReadOnly"
      ∉ [gfnt.NewString Examples.readOnlyARN].
Proof.
  apply (explicit_entry_overrides_default Reference.iamDefaultNodePolicies
           Reference.iamPolicyAmazonEKSCNIPolicy
           Reference.iamPolicyAmazonEC2ContainerRegistryPowerUser
           Reference.iamPolicyAmazonEC2ContainerRegistryReadOnly
           Reference.iamPolicyCloudWatchAgentServerPolicy
           Reference.iamPolicyAmazonSSMManagedInstanceCore Reference.Parse
           (Reference.cluster None)
           (Reference.nodeGroup [Examples.readOnlyARN] Reference.noAddons)
           false false _ Examples.readOnlyARN).
  - by vm_compute.
  - simpl. apply list_elem_of_here.
  - exact ExampleFacts.readOnlyARN_name.
Defined.

(** A self-managed node group without image-builder, next to an
    attach-list that does not and one that does name the read-only
    registry policy; a self-managed node group with image-builder; a
    managed node group with image-builder and the default attach-list. *)
Lemma registry_policy_by_image_builder_witness :
  InResolved Reference.Parse "AmazonEC2ContainerRegistryReadOnly"
    [gfnt.NewString Examples.workerNodeARN;
     makePolicyARN "AmazonEC2ContainerRegistryReadOnly"]
  ∧ InResolved Reference.Parse "AmazonEC2ContainerRegistryReadOnly"
      [gfnt.NewString Examples.readOnlyARN]
  ∧ InResolved Reference.Parse "AmazonEC2ContainerRegistryPowerUser"
      [makePolicyARN "AmazonEC2ContainerRegistryPowerUser";
       makePolicyARN "AmazonEKSWorkerNodePolicy";
       makePolicyARN "AmazonEKS_CNI_Policy"]
  ∧ (makePolicyARN "AmazonEC2ContainerRegistryReadOnly"
       ∉ [makePolicyARN "AmazonEC2ContainerRegistryPowerUser";
          makePolicyARN "AmazonEKSWorkerNodePolicy";
          makePolicyARN "AmazonEKS_CNI_Policy"])
  ∧ (makePolicyARN "AmazonEC2ContainerRegistryReadOnly"
       ∈ [makePolicyARN "AmazonEC2ContainerRegistryPowerUser";
          makePolicyARN "AmazonEC2ContainerRegistryReadOnly";
          makePolicyARN "AmazonEKSWorkerNodePolicy";
          makePolicyARN "AmazonEKS_CNI_Policy"]
     ∧ makePolicyARN "AmazonEC2ContainerRegistryPowerUser"
         ∈ [makePolicyARN "AmazonEC2ContainerRegistryPowerUser";
            makePolicyARN "AmazonEC2ContainerRegistryReadOnly";
            makePolicyARN "AmazonEKSWorkerNodePolicy";
            makePolicyARN "AmazonEKS_CNI_Policy"]).
Proof.
  split; [|split; [|split; [|split]]].
  - apply (registry_policy_by_image_builder Reference.iamDefaultNodePolicies
             Reference.iamPolicyAmazonEKSCNIPolicy
             Reference.iamPolicyAmazonEC2ContainerRegistryPowerUser
             Reference.iamPolicyAmazonEC2ContainerRegistryReadOnly
             Reference.iamPolicyCloudWatchAgentServerPolicy
             Reference.iamPolicyAmazonSSMManagedInstanceCore Reference.Parse
             (Reference.cluster None)
             (Reference.nodeGroup [Examples.workerNodeARN] Reference.noAddons)
             false false);
      [by vm_compute|reflexivity|reflexivity].
  - apply (registry_policy_by_image_builder Reference.iamDefaultNodePolicies
             Reference.iamPolicyAmazonEKSCNIPolicy
             Reference.iamPolicyAmazonEC2ContainerRegistryPowerUser
             Reference.iamPolicyAmazonEC2ContainerRegistryReadOnly
             Reference.iamPolicyCloudWatchAgentServerPolicy
             Reference.iamPolicyAmazonSSMManagedInstanceCore Reference.Parse
             (Reference.cluster None)
             (Reference.nodeGroup [Examples.readOnlyARN] Reference.noAddons)
             false false);
      [by vm_compute|reflexivity|reflexivity].
  - apply (registry_policy_by_image_builder Reference.iamDefaultNodePolicies
             Reference.iamPolicyAmazonEKSCNIPolicy
             Reference.iamPolicyAmazonEC2ContainerRegistryPowerUser
             Reference.iamPolicyAmazonEC2ContainerRegistryReadOnly
             Reference.iamPolicyCloudWatchAgentServerPolicy
             Reference.iamPolicyAmazonSSMManagedInstanceCore Reference.Parse
             (Reference.cluster None)
             (Reference.nodeGroup [] Examples.withImageBuilder) false false);
      [by vm_compute|reflexivity].
  - apply (registry_policy_by_image_builder Reference.iamDefaultNodePolicies
             Reference.iamPolicyAmazonEKSCNIPolicy
             Reference.iamPolicyAmazonEC2ContainerRegistryPowerUser
             Reference.iamPolicyAmazonEC2ContainerRegistryReadOnly
             Reference.iamPolicyCloudWatchAgentServerPolicy
             Reference.iamPolicyAmazonSSMManagedInstanceCore Reference.Parse
             (Reference.cluster None)
             (Reference.nodeGroup [] Examples.withImageBuilder) false false);
      [by vm_compute|reflexivity|by left|exact ExampleFacts.separate_ReadOnly].
  - apply (registry_policy_by_image_builder Reference.iamDefaultNodePolicies
             Reference.iamPolicyAmazonEKSCNIPolicy
             Reference.iamPolicyAmazonEC2ContainerRegistryPowerUser
             Reference.iamPolicyAmazonEC2ContainerRegistryReadOnly
             Reference.iamPolicyCloudWatchAgentServerPolicy
             Reference.iamPolicyAmazonSSMManagedInstanceCore Reference.Parse
             (Reference.cluster None)
             (Reference.nodeGroup [] Examples.withImageBuilder) true false);
      [by vm_compute|reflexivity|reflexivity|reflexivity].
Defined.

(** C4 as stated fails: a managed node group with image-builder enabled
    and the default attach-list gets both registry policies. *)
Lemma managed_image_builder_keeps_registry_read_only :
  api.IsEnabled (api.ImageBuilder Examples.withImageBuilder) = true
  ∧ Reference.makeManagedPolicies (Reference.cluster None)
      (Reference.nodeGroup [] Examples.withImageBuilder) true false
    = Ok (gfnt.NewSlice
            [makePolicyARN "AmazonEC2ContainerRegistryPowerUser";
             makePolicyARN "AmazonEC2ContainerRegistryReadOnly";
             makePolicyARN "AmazonEKSWorkerNodePolicy";
             makePolicyARN "AmazonEKS_CNI_Policy"])
  ∧ makePolicyARN "AmazonEC2ContainerRegistryReadOnly"
      ∈ [makePolicyARN "AmazonEC2ContainerRegistryPowerUser";
         makePolicyARN "AmazonEC2ContainerRegistryReadOnly";
         makePolicyARN "AmazonEKSWorkerNodePolicy";
         makePolicyARN "AmazonEKS_CNI_Policy"].
Proof.
  split; [reflexivity|]. split; [by vm_compute|].
  apply list_elem_of_further, list_elem_of_here.
Qed.

(** The default attach-list, with OIDC unset and with OIDC enabled. *)
Lemma cni_policy_follows_oidc_witness :
  (∃ l, Reference.makeManagedPolicies (Reference.cluster None)
          (Reference.nodeGroup [] Reference.noAddons) false false
        = Ok (gfnt.NewSlice l)
        ∧ makePolicyARN "AmazonEKS_CNI_Policy" ∈ l)
  ∧ (∃ l, Reference.makeManagedPolicies (Reference.cluster (Some true))
            (Reference.nodeGroup [] Reference.noAddons) false false
          = Ok (gfnt.NewSlice l)
          ∧ makePolicyARN "AmazonEKS_CNI_Policy" ∉ l).
Proof.
  split.
  - destruct (cni_policy_follows_oidc Reference.iamDefaultNodePolicies
              Reference.iamPolicyAmazonEKSCNIPolicy
              Reference.iamPolicyAmazonEC2ContainerRegistryPowerUser
              Reference.iamPolicyAmazonEC2ContainerRegistryReadOnly
              Reference.iamPolicyCloudWatchAgentServerPolicy
              Reference.iamPolicyAmazonSSMManagedInstanceCore Reference.Parse
                (Reference.cluster None)
                (Reference.nodeGroup [] Reference.noAddons) false false
                eq_refl)
      as (l & Hl & Hin & _).
    exists l. split; [exact Hl|]. apply Hin. reflexivity.
  - destruct (cni_policy_follows_oidc Reference.iamDefaultNodePolicies
              Reference.iamPolicyAmazonEKSCNIPolicy
              Reference.iamPolicyAmazonEC2ContainerRegistryPowerUser
              Reference.iamPolicyAmazonEC2ContainerRegistryReadOnly
              Reference.iamPolicyCloudWatchAgentServerPolicy
              Reference.iamPolicyAmazonSSMManagedInstanceCore Reference.Parse
                (Reference.cluster (Some true))
                (Reference.nodeGroup [] Reference.noAddons) false false
                eq_refl)
      as (l & Hl & _ & Hout).
    exists l. split; [exact Hl|].
    apply Hout; [reflexivity|exact ExampleFacts.separate_CNI].
Defined.

(** An attach-list without repetition. *)
Lemma resolved_duplicates_witness :
  ∃ names,
    [gfnt.NewString Examples.workerNodeARN;
     makePolicyARN "AmazonEC2ContainerRegistryReadOnly"]
    = (makeStringSlice [Examples.workerNodeARN] ++ makePolicyARNs names)%list
    ∧ NoDup (makePolicyARNs names)
    ∧ (∀ policyARN name,
          policyARN ∈ [Examples.workerNodeARN] →
          ResourceNameOf Reference.Parse policyARN name →
          makePolicyARN name
            ∉ [gfnt.NewString Examples.workerNodeARN;
               makePolicyARN "AmazonEC2ContainerRegistryReadOnly"])
    ∧ (NoDup [gfnt.NewString Examples.workerNodeARN;
              makePolicyARN "AmazonEC2ContainerRegistryReadOnly"]
       ↔ NoDup [Examples.workerNodeARN]).
Proof.
  apply (resolved_duplicates Reference.iamDefaultNodePolicies
           Reference.iamPolicyAmazonEKSCNIPolicy
           Reference.iamPolicyAmazonEC2ContainerRegistryPowerUser
           Reference.iamPolicyAmazonEC2ContainerRegistryReadOnly
           Reference.iamPolicyCloudWatchAgentServerPolicy
           Reference.iamPolicyAmazonSSMManagedInstanceCore Reference.Parse
           (Reference.cluster None)
           (Reference.nodeGroup [Examples.workerNodeARN] Reference.noAddons)
           false false).
  by vm_compute.
Defined.

(** C7 as stated fails: an ARN repeated in the attach-list is repeated in
    the result. *)
Lemma repeated_attach_entry_is_repeated :
  Reference.makeManagedPolicies (Reference.cluster None)
    (Reference.nodeGroup [Examples.workerNodeARN; Examples.workerNodeARN]
       Reference.noAddons) true false
  = Ok (gfnt.NewSlice [gfnt.NewString Examples.workerNodeARN;
                       gfnt.NewString Examples.workerNodeARN])
  ∧ ¬ NoDup [gfnt.NewString Examples.workerNodeARN;
             gfnt.NewString Examples.workerNodeARN].
Proof.
  split; [by vm_compute|].
  intros [Hnotin _]%NoDup_cons. apply Hnotin, list_elem_of_here.
Qed.

(** An attach-list of two entries on a self-managed node group with
    session-manager access. *)
Lemma resolved_order_witness :
  ∃ names,
    gfnt.NewSlice
      [gfnt.NewString Examples.workerNodeARN;
       gfnt.NewString "arn:aws:iam::aws:policy/AmazonEKS_CNI_Policy";
       makePolicyARN "AmazonEC2ContainerRegistryReadOnly";
       makePolicyARN "AmazonSSMManagedInstanceCore"]
    = gfnt.NewSlice
        ((gfnt.NewString
            <$> [Examples.workerNodeARN;
                 "arn:aws:iam::aws:policy/AmazonEKS_CNI_Policy"])
           ++ (makePolicyARN <$> names))%list
    ∧ StronglySorted String.le names
    ∧ NoDup names
    ∧ (∀ n, n ∈ names
            ↔ (n ∈ collectPolicyNames Reference.iamDefaultNodePolicies
                     Reference.iamPolicyAmazonEKSCNIPolicy
                     Reference.iamPolicyAmazonEC2ContainerRegistryPowerUser
                     Reference.iamPolicyAmazonEC2ContainerRegistryReadOnly
                     Reference.iamPolicyCloudWatchAgentServerPolicy
                     Reference.iamPolicyAmazonSSMManagedInstanceCore
                     (Reference.cluster None)
                     (Reference.nodeGroup
                        [Examples.workerNodeARN;
                         "arn:aws:iam::aws:policy/AmazonEKS_CNI_Policy"]
                        Reference.noAddons) false true
               ∧ ¬ (∃ a, a ∈ [Examples.workerNodeARN;
                              "arn:aws:iam::aws:policy/AmazonEKS_CNI_Policy"]
                         ∧ ResourceNameOf Reference.Parse a n)))
    ∧ (∀ keys, NoDup keys → (∀ n, n ∈ keys ↔ n ∈ names) →
               merge_sort String.le keys = names).
Proof.
  apply (resolved_order Reference.iamDefaultNodePolicies
           Reference.iamPolicyAmazonEKSCNIPolicy
           Reference.iamPolicyAmazonEC2ContainerRegistryPowerUser
           Reference.iamPolicyAmazonEC2ContainerRegistryReadOnly
           Reference.iamPolicyCloudWatchAgentServerPolicy
           Reference.iamPolicyAmazonSSMManagedInstanceCore Reference.Parse
           (Reference.cluster None)
           (Reference.nodeGroup
              [Examples.workerNodeARN;
               "arn:aws:iam::aws:policy/AmazonEKS_CNI_Policy"]
              Reference.noAddons) false true).
  by vm_compute.
Defined.

(** Every addon enabled. *)
Lemma statement_names_distinct_witness :
  NoDup (statementNames
           (snd (Reference.createRole [] (Reference.cluster None)
                   (Reference.nodeGroup [] (Examples.allAddons (Some true)))
                   false false))).
Proof.
  apply (statement_names_distinct Reference.iamDefaultNodePolicies
           Reference.iamPolicyAmazonEKSCNIPolicy
           Reference.iamPolicyAmazonEC2ContainerRegistryPowerUser
           Reference.iamPolicyAmazonEC2ContainerRegistryReadOnly
           Reference.iamPolicyCloudWatchAgentServerPolicy
           Reference.iamPolicyAmazonSSMManagedInstanceCore Reference.Parse
           Reference.cfnIAMInstanceRoleName Reference.MakeServiceRef
           (Reference.cluster None)
           (Reference.nodeGroup [] (Examples.allAddons (Some true)))
           false false).
  by vm_compute.
Defined.

(** Every addon enabled, against the same with external-DNS unset. *)
Lemma cert_manager_with_external_dns_witness :
  hostedZoneChangeSets
    (snd (Reference.createRole [] (Reference.cluster None)
            (Reference.nodeGroup [] (Examples.allAddons (Some true)))
            false false))
  = [ CallAttachAllowPolicy "PolicyCertManagerChangeSet"
        (gfnt.MakeRef Reference.cfnIAMInstanceRoleName)
        (ResourcesValue (addARNPartitionPrefix "route53:::hostedzone/*"))
        [ "route53:ChangeResourceRecordSets" ] ].
Proof.
  apply (cert_manager_with_external_dns Reference.iamDefaultNodePolicies
           Reference.iamPolicyAmazonEKSCNIPolicy
           Reference.iamPolicyAmazonEC2ContainerRegistryPowerUser
           Reference.iamPolicyAmazonEC2ContainerRegistryReadOnly
           Reference.iamPolicyCloudWatchAgentServerPolicy
           Reference.iamPolicyAmazonSSMManagedInstanceCore Reference.Parse
           Reference.cfnIAMInstanceRoleName Reference.MakeServiceRef
           (Reference.cluster None)
           (Reference.nodeGroup [] (Examples.allAddons (Some true)))
           false false _
           (Reference.cluster None)
           (Reference.nodeGroup [] (Examples.allAddons None))
           false false
           (snd (Reference.createRole [] (Reference.cluster None)
                   (Reference.nodeGroup [] (Examples.allAddons None))
                   false false)));
    by vm_compute.
Defined.

(** ** The further properties at concrete configurations *)

(** The second entry is malformed; the third is never looked at. *)
Lemma first_malformed_entry_decides_error_witness :
  Reference.makeManagedPolicies (Reference.cluster None)
    (Reference.nodeGroup [Examples.workerNodeARN; Examples.roleARN; "junk"]
       Reference.noAddons) false false
  = Err "failed to find ARN resource name: role".
Proof.
  apply (proj2 (first_malformed_entry_decides_error Reference.iamDefaultNodePolicies
           Reference.iamPolicyAmazonEKSCNIPolicy
           Reference.iamPolicyAmazonEC2ContainerRegistryPowerUser
           Reference.iamPolicyAmazonEC2ContainerRegistryReadOnly
           Reference.iamPolicyCloudWatchAgentServerPolicy
           Reference.iamPolicyAmazonSSMManagedInstanceCore Reference.Parse
                  (Reference.cluster None)
                  (Reference.nodeGroup
                     [Examples.workerNodeARN; Examples.roleARN; "junk"]
                     Reference.noAddons) false false
                  [Examples.workerNodeARN] Examples.roleARN ["junk"]
                  eq_refl
                  (Forall_cons_2 _ _ _
                     (ex_intro _ _ ExampleFacts.workerNodeARN_name)
                     (Forall_nil_2 _)))
           {| arn.Partition := "aws"; arn.Service := "iam"; arn.Region := "";
              arn.AccountID := "123456789012"; arn.Resource := "role" |}
           eq_refl (or_introl eq_refl)).
Defined.

(** Session-manager access next to an explicit attach-list. *)
Lemma ssm_policy_follows_flag_witness :
  InResolved Reference.Parse "AmazonSSMManagedInstanceCore"
    (Examples.resolved (Reference.cluster None)
       (Reference.nodeGroup [Examples.workerNodeARN] Reference.noAddons)
       false true).
Proof.
  apply (proj1 (ssm_policy_follows_flag Reference.iamDefaultNodePolicies
           Reference.iamPolicyAmazonEKSCNIPolicy
           Reference.iamPolicyAmazonEC2ContainerRegistryPowerUser
           Reference.iamPolicyAmazonEC2ContainerRegistryReadOnly
           Reference.iamPolicyCloudWatchAgentServerPolicy
           Reference.iamPolicyAmazonSSMManagedInstanceCore Reference.Parse
                  (Reference.cluster None)
                  (Reference.nodeGroup [Examples.workerNodeARN]
                     Reference.noAddons) false true _
                  ltac:(by vm_compute))).
  reflexivity.
Defined.

(** The CloudWatch addon next to an explicit attach-list. *)
Lemma cloudwatch_policy_follows_flag_witness :
  InResolved Reference.Parse "CloudWatchAgentServerPolicy"
    (Examples.resolved (Reference.cluster None)
       (Reference.nodeGroup [Examples.workerNodeARN]
          (Examples.allAddons None)) false false).
Proof.
  apply (proj1 (cloudwatch_policy_follows_flag Reference.iamDefaultNodePolicies
           Reference.iamPolicyAmazonEKSCNIPolicy
           Reference.iamPolicyAmazonEC2ContainerRegistryPowerUser
           Reference.iamPolicyAmazonEC2ContainerRegistryReadOnly
           Reference.iamPolicyCloudWatchAgentServerPolicy
           Reference.iamPolicyAmazonSSMManagedInstanceCore Reference.Parse
                  (Reference.cluster None)
                  (Reference.nodeGroup [Examples.workerNodeARN]
                     (Examples.allAddons None)) false false _
                  ltac:(by vm_compute))).
  reflexivity.
Defined.

(** An explicit attach-list with session-manager access: the SSM policy
    is one of the four the resolver may add. *)
Lemma attach_list_replaces_default_bundle_witness :
  ("AmazonSSMManagedInstanceCore" = "AmazonSSMManagedInstanceCore"
   ∧ true = true)
  ∨ ("AmazonSSMManagedInstanceCore" = "AmazonEC2ContainerRegistryPowerUser"
     ∧ false = true)
  ∨ ("AmazonSSMManagedInstanceCore" = "AmazonEC2ContainerRegistryReadOnly"
     ∧ false = false ∧ false = false)
  ∨ ("AmazonSSMManagedInstanceCore" = "CloudWatchAgentServerPolicy"
     ∧ false = true).
Proof.
  apply (attach_list_replaces_default_bundle Reference.iamDefaultNodePolicies
           Reference.iamPolicyAmazonEKSCNIPolicy
           Reference.iamPolicyAmazonEC2ContainerRegistryPowerUser
           Reference.iamPolicyAmazonEC2ContainerRegistryReadOnly
           Reference.iamPolicyCloudWatchAgentServerPolicy
           Reference.iamPolicyAmazonSSMManagedInstanceCore Reference.Parse
           (Reference.cluster None)
           (Reference.nodeGroup [Examples.workerNodeARN] Reference.noAddons)
           false true
           [gfnt.NewString Examples.workerNodeARN;
            makePolicyARN "AmazonEC2ContainerRegistryReadOnly";
            makePolicyARN "AmazonSSMManagedInstanceCore"]).
  - discriminate.
  - by vm_compute.
  - apply list_elem_of_further, list_elem_of_further, list_elem_of_here.
Defined.

(** The default attach-list on a managed node group. *)
Lemma default_resolution_contents_witness :
  ∃ l, Reference.makeManagedPolicies (Reference.cluster None)
         (Reference.nodeGroup [] Reference.noAddons) true false
       = Ok (gfnt.NewSlice l)
       ∧ (makePolicyARN "AmazonEKSWorkerNodePolicy" ∈ l)
       ∧ (makePolicyARN "AmazonEC2ContainerRegistryReadOnly" ∈ l).
Proof.
  destruct (default_resolution_contents Reference.iamDefaultNodePolicies
              Reference.iamPolicyAmazonEKSCNIPolicy
              Reference.iamPolicyAmazonEC2ContainerRegistryPowerUser
              Reference.iamPolicyAmazonEC2ContainerRegistryReadOnly
              Reference.iamPolicyCloudWatchAgentServerPolicy
              Reference.iamPolicyAmazonSSMManagedInstanceCore Reference.Parse
              (Reference.cluster None)
              (Reference.nodeGroup [] Reference.noAddons) true false eq_refl)
    as (l & Hl & Hiff).
  exists l. split; [exact Hl|]. split.
  - apply Hiff. left. apply list_elem_of_here.
  - apply Hiff. right. right. left. split; [reflexivity|by left].
Defined.

(** Every addon enabled, with a role name and no permissions boundary. *)
Lemma role_registered_first_witness :
  ∃ arns rest,
    Reference.makeManagedPolicies (Reference.cluster None)
      {| api.AttachPolicyARNs := [];
         api.InstanceRoleName := "nodes";
         api.InstanceRolePermissionsBoundary := "";
         api.WithAddonPolicies := Examples.allAddons (Some true) |}
      false false
    = Ok arns
    ∧ Examples.recorded (Reference.cluster None)
        {| api.AttachPolicyARNs := [];
           api.InstanceRoleName := "nodes";
           api.InstanceRolePermissionsBoundary := "";
           api.WithAddonPolicies := Examples.allAddons (Some true) |}
        false false
      = CallNewResource "NodeInstanceRole"
          {| gfniam.Path := gfnt.NewString "/";
             gfniam.AssumeRolePolicyDocument :=
               cft.MakeAssumeRolePolicyDocumentForServices
                 [Reference.MakeServiceRef "EC2"];
             gfniam.ManagedPolicyArns := arns;
             gfniam.RoleName := Some (gfnt.NewString "nodes");
             gfniam.PermissionsBoundary := None |}
          :: rest
    ∧ Forall (λ c, ∃ name resources actions,
                 c = CallAttachAllowPolicy name
                       (gfnt.MakeRef "NodeInstanceRole")
                       resources actions) rest.
Proof.
  apply (role_registered_first Reference.iamDefaultNodePolicies
           Reference.iamPolicyAmazonEKSCNIPolicy
           Reference.iamPolicyAmazonEC2ContainerRegistryPowerUser
           Reference.iamPolicyAmazonEC2ContainerRegistryReadOnly
           Reference.iamPolicyCloudWatchAgentServerPolicy
           Reference.iamPolicyAmazonSSMManagedInstanceCore Reference.Parse Reference.cfnIAMInstanceRoleName Reference.MakeServiceRef
           (Reference.cluster None)
           {| api.AttachPolicyARNs := [];
              api.InstanceRoleName := "nodes";
              api.InstanceRolePermissionsBoundary := "";
              api.WithAddonPolicies := Examples.allAddons (Some true) |}
           false false).
  by vm_compute.
Defined.

(** Every addon enabled: thirteen statements, in order. *)
Lemma statement_names_in_order_witness :
  statementNames
    (Examples.recorded (Reference.cluster None)
       (Reference.nodeGroup [] (Examples.allAddons (Some true))) false false)
  = [ "PolicyAutoScaling"; "PolicyCertManagerChangeSet";
      "PolicyCertManagerHostedZones"; "PolicyCertManagerGetChange";
      "PolicyAppMesh"; "PolicyAppMeshPreview"; "PolicyEBS"; "PolicyFSX";
      "PolicyServiceLinkRole"; "PolicyEFS"; "PolicyEFSEC2";
      "PolicyALBIngress"; "PolicyXRay" ].
Proof.
  apply (statement_names_in_order Reference.iamDefaultNodePolicies
           Reference.iamPolicyAmazonEKSCNIPolicy
           Reference.iamPolicyAmazonEC2ContainerRegistryPowerUser
           Reference.iamPolicyAmazonEC2ContainerRegistryReadOnly
           Reference.iamPolicyCloudWatchAgentServerPolicy
           Reference.iamPolicyAmazonSSMManagedInstanceCore Reference.Parse Reference.cfnIAMInstanceRoleName Reference.MakeServiceRef
           (Reference.cluster None)
           (Reference.nodeGroup [] (Examples.allAddons (Some true)))
           false false).
  by vm_compute.
Defined.

(** Every addon enabled. *)
Lemma statement_actions_nonempty_distinct_witness :
  Forall (λ c, match c with
               | CallAttachAllowPolicy _ _ _ actions =>
                   actions ≠ [] ∧ NoDup actions
               | CallNewResource _ _ => True
               end)
    (Examples.recorded (Reference.cluster None)
       (Reference.nodeGroup [] (Examples.allAddons (Some true))) false false).
Proof.
  apply (statement_actions_nonempty_distinct Reference.iamDefaultNodePolicies
           Reference.iamPolicyAmazonEKSCNIPolicy
           Reference.iamPolicyAmazonEC2ContainerRegistryPowerUser
           Reference.iamPolicyAmazonEC2ContainerRegistryReadOnly
           Reference.iamPolicyCloudWatchAgentServerPolicy
           Reference.iamPolicyAmazonSSMManagedInstanceCore Reference.Parse Reference.cfnIAMInstanceRoleName Reference.MakeServiceRef
           (Reference.cluster None)
           (Reference.nodeGroup [] (Examples.allAddons (Some true)))
           false false).
  by vm_compute.
Defined.

(** Every addon enabled. *)
Lemma statement_scopes_witness :
  Forall (λ c, match c with
               | CallAttachAllowPolicy name _ resources _ =>
                   resources = statementScope name
               | CallNewResource _ _ => True
               end)
    (Examples.recorded (Reference.cluster None)
       (Reference.nodeGroup [] (Examples.allAddons (Some true))) false false).
Proof.
  apply (statement_scopes Reference.iamDefaultNodePolicies
           Reference.iamPolicyAmazonEKSCNIPolicy
           Reference.iamPolicyAmazonEC2ContainerRegistryPowerUser
           Reference.iamPolicyAmazonEC2ContainerRegistryReadOnly
           Reference.iamPolicyCloudWatchAgentServerPolicy
           Reference.iamPolicyAmazonSSMManagedInstanceCore Reference.Parse Reference.cfnIAMInstanceRoleName Reference.MakeServiceRef
           (Reference.cluster None)
           (Reference.nodeGroup [] (Examples.allAddons (Some true)))
           false false).
  by vm_compute.
Defined.

(** App-mesh enabled, app-mesh-preview unset. *)
Lemma app_mesh_statements_independent_witness :
  statementActions "PolicyAppMesh"
    (Examples.recorded (Reference.cluster None)
       (Reference.nodeGroup [] Examples.externalDNSOnly) false false)
  = Some (appMeshActions ++ ["appmesh:*"])%list
  ∧ statementActions "PolicyAppMeshPreview"
      (Examples.recorded (Reference.cluster None)
         (Reference.nodeGroup [] Examples.externalDNSOnly) false false)
    = None.
Proof.
  apply (app_mesh_statements_independent Reference.iamDefaultNodePolicies
           Reference.iamPolicyAmazonEKSCNIPolicy
           Reference.iamPolicyAmazonEC2ContainerRegistryPowerUser
           Reference.iamPolicyAmazonEC2ContainerRegistryReadOnly
           Reference.iamPolicyCloudWatchAgentServerPolicy
           Reference.iamPolicyAmazonSSMManagedInstanceCore Reference.Parse Reference.cfnIAMInstanceRoleName Reference.MakeServiceRef
           (Reference.cluster None)
           (Reference.nodeGroup [] Examples.externalDNSOnly) false false).
  by vm_compute.
Defined.

(** External-DNS enabled, certificate-manager disabled. *)
Lemma external_dns_without_cert_manager_witness :
  hostedZoneChangeSets
    (Examples.recorded (Reference.cluster None)
       (Reference.nodeGroup [] Examples.externalDNSOnly) false false)
  = [ CallAttachAllowPolicy "PolicyExternalDNSChangeSet"
        (gfnt.MakeRef Reference.cfnIAMInstanceRoleName)
        (ResourcesValue (addARNPartitionPrefix "route53:::hostedzone/*"))
        [ "route53:ChangeResourceRecordSets" ] ]
  ∧ (∀ name, name ∈ ["PolicyCertManagerChangeSet";
                     "PolicyCertManagerHostedZones";
                     "PolicyCertManagerGetChange"] →
             name ∉ statementNames
                      (Examples.recorded (Reference.cluster None)
                         (Reference.nodeGroup [] Examples.externalDNSOnly)
                         false false))
  ∧ statementActions "PolicyExternalDNSHostedZones"
      (Examples.recorded (Reference.cluster None)
         (Reference.nodeGroup [] Examples.externalDNSOnly) false false)
    = Some [ "route53:ListHostedZones"; "route53:ListResourceRecordSets";
             "route53:ListTagsForResource" ].
Proof.
  apply (external_dns_without_cert_manager Reference.iamDefaultNodePolicies
           Reference.iamPolicyAmazonEKSCNIPolicy
           Reference.iamPolicyAmazonEC2ContainerRegistryPowerUser
           Reference.iamPolicyAmazonEC2ContainerRegistryReadOnly
           Reference.iamPolicyCloudWatchAgentServerPolicy
           Reference.iamPolicyAmazonSSMManagedInstanceCore Reference.Parse Reference.cfnIAMInstanceRoleName Reference.MakeServiceRef
           (Reference.cluster None)
           (Reference.nodeGroup [] Examples.externalDNSOnly) false false);
    by vm_compute.
Defined.
